(** * pdf.tocgen: heading filters, span metadata and the ToC notation

    A shallow embedding of
      - [src/pdftocgen/filter.py]  (module [Filter]),
      - [src/pdfxmeta/pdfxmeta.py] (module [Pdfxmeta]),
    and of the hierarchy builder and notation codec that the repository
    imports from [pdftocgen.tocgen], [fitzutils] and [pdftocio.tocparser]
    (module [ToC], modelled from the specification).

    Conventions.
      - A Python [str] is a [string]; its characters are read as code points
        below 256.
      - A Python [float] is a binary64 primitive float; literals are rounded
        to the nearest double exactly as Python rounds them.
      - A dictionary read with [d.get(k)] or [d[k]] is a record whose field
        [k] is an [option]: [None] is the missing key.
      - A function that can raise returns a [result]. *)

From Stdlib Require Import List String Ascii ZArith Lia Bool PrimFloat.
From Stdlib Require Import Sorted.
From Stdlib Require Import DecimalString DecimalPos HexadecimalString.
From Stdlib Require SpecFloat FloatOps Uint63.
Import ListNotations.

Set Warnings "-inexact-float,-register-all".

Local Open Scope string_scope.
Local Open Scope Z_scope.

(* ================================================================== *)
(** ** Python primitives *)
(* ================================================================== *)

Module Py.

(** Exceptions raised by the modelled code. *)
Inductive exn : Type :=
| ValueError (msg : string)
| KeyError (key : string)
| IndexError
| ReError (pattern : string)
| ParseError (lineno : nat).

Inductive result (A : Type) : Type :=
| Ok (a : A)
| Raise (e : exn).
Arguments Ok {A} a.
Arguments Raise {A} e.

Definition bind {A B} (r : result A) (k : A -> result B) : result B :=
  match r with
  | Ok a => k a
  | Raise e => Raise e
  end.

Notation "x <- r ;; k" := (bind r (fun x => k))
  (at level 61, r at next level, right associativity).

(** [d[k]]: a missing key raises [KeyError]. *)
Definition getitem {A} (key : string) (field : option A) : result A :=
  match field with
  | Some a => Ok a
  | None => Raise (KeyError key)
  end.

(** [d.get(k, dflt)]. *)
Definition get_default {A} (field : option A) (dflt : A) : A :=
  match field with
  | Some a => a
  | None => dflt
  end.

(** [c.isspace()] on the code points below 256:
    TAB..CR, FS..US, space, NEL and NBSP. *)
Definition isspace (c : ascii) : bool :=
  let n := nat_of_ascii c in
  (((9 <=? n) && (n <=? 13)) || ((28 <=? n) && (n <=? 32))
   || (n =? 133) || (n =? 160))%nat.

(** [s.lstrip()], [s.rstrip()], [s.strip()]. *)
Fixpoint lstrip (s : string) : string :=
  match s with
  | EmptyString => EmptyString
  | String c s' => if isspace c then lstrip s' else s
  end.

Fixpoint rstrip (s : string) : string :=
  match s with
  | EmptyString => EmptyString
  | String c s' =>
      match rstrip s' with
      | EmptyString => if isspace c then EmptyString else String c EmptyString
      | r => String c r
      end
  end.

Definition strip (s : string) : string := rstrip (lstrip s).

(** [sep.join(parts)]. *)
Fixpoint join (sep : string) (parts : list string) : string :=
  match parts with
  | [] => EmptyString
  | [p] => p
  | p :: rest => p ++ sep ++ join sep rest
  end.

(** [s.partition(c)] for a one-character separator: the text before the
    first [c], the separator found (empty when there is none) and the text
    after it. *)
Fixpoint partition (c : ascii) (s : string) : string * string * string :=
  match s with
  | EmptyString => (EmptyString, EmptyString, EmptyString)
  | String a s' =>
      if Ascii.eqb a c then (EmptyString, String c EmptyString, s')
      else let '(before, sep, after) := partition c s' in
           (String a before, sep, after)
  end.

(** Truth value of a [str]: empty is false. *)
Definition truthy (s : string) : bool :=
  match s with
  | EmptyString => false
  | _ => true
  end.

(** [str(n)] for an [int]. *)
Definition str_of_int (n : Z) : string :=
  DecimalString.NilZero.string_of_int (Z.to_int n).

(** [format(n, '#08x')]: sign, [0x], then lowercase hexadecimal digits
    padded with zeros to a total width of eight. *)
Fixpoint zeros (n : nat) : string :=
  match n with
  | O => EmptyString
  | S n' => String "0" (zeros n')
  end.

Definition format_x08 (n : Z) : string :=
  let sign := if n <? 0 then "-" else EmptyString in
  let digits := HexadecimalString.NilZero.string_of_uint
                  (N.to_hex_uint (Z.abs_N n)) in
  let width := (String.length sign + 2 + String.length digits)%nat in
  sign ++ "0x" ++ zeros (8 - width) ++ digits.

(** [c in s] for a character and [sub in s] for a text. *)
Fixpoint contains_char (c : ascii) (s : string) : bool :=
  match s with
  | EmptyString => false
  | String a s' => Ascii.eqb a c || contains_char c s'
  end.

Fixpoint contains (sub s : string) : bool :=
  String.prefix sub s ||
  match s with
  | EmptyString => false
  | String _ s' => contains sub s'
  end.

(** [s[n:]]. *)
Fixpoint drop (n : nat) (s : string) : string :=
  match n, s with
  | S n', String _ s' => drop n' s'
  | _, _ => s
  end.

(** [s * n]. *)
Fixpoint repeat_str (s : string) (n : nat) : string :=
  match n with
  | O => EmptyString
  | S n' => s ++ repeat_str s n'
  end.

(** [s.rpartition(sep)] when [sep] occurs in [s]: the text before the last
    occurrence and the text after it; [None] when there is no occurrence. *)
Fixpoint rpartition (sep s : string) : option (string * string) :=
  match s with
  | EmptyString => None
  | String c s' =>
      match rpartition sep s' with
      | Some (before, after) => Some (String c before, after)
      | None =>
          if String.prefix sep s
          then Some (EmptyString, drop (String.length sep) s)
          else None
      end
  end.

(** The list without its longest prefix of elements that satisfy [p]. *)
Fixpoint drop_while {A} (p : A -> bool) (l : list A) : list A :=
  match l with
  | [] => []
  | a :: l' => if p a then drop_while p l' else l
  end.

(** [s.split(c)] for a one-character separator. *)
Fixpoint split_char (c : ascii) (s : string) : list string :=
  match s with
  | EmptyString => [EmptyString]
  | String a s' =>
      if Ascii.eqb a c then EmptyString :: split_char c s'
      else match split_char c s' with
           | first :: rest => String a first :: rest
           | [] => [String a EmptyString]
           end
  end.

End Py.
Import Py.

(* ================================================================== *)
(** ** Spans as PyMuPDF's [extractDICT] gives them *)
(* ================================================================== *)

(** A span dictionary.  Every key may be missing. *)
Record Span : Type := mkSpan {
  sp_text  : option string;
  sp_font  : option string;
  sp_size  : option float;
  sp_flags : option Z;
  sp_color : option Z;
  sp_bbox  : option (float * float * float * float)
}.

Record Line : Type := mkLine { ln_spans : option (list Span) }.
Record Block : Type := mkBlock { blk_lines : option (list Line) }.
Record PageMeta : Type := mkPageMeta { pg_blocks : option (list Block) }.

(* ================================================================== *)
(** ** [src/pdftocgen/filter.py] *)
(* ================================================================== *)

Module Filter.

Definition DEF_TOLERANCE : float := 1e-5%float.

(** [admits_float(expect, actual, tolerance)]. *)
Definition admits_float (expect actual : option float) (tolerance : float)
  : bool :=
  match expect with
  | None => true
  | Some e =>
      match actual with
      | None => false
      | Some a => PrimFloat.leb (PrimFloat.abs (PrimFloat.sub e a)) tolerance
      end
  end.

(** The [font] table of a recipe entry and the entry itself, typed as the
    recipe format declares them. *)
Record FontDict : Type := mkFontDict {
  fd_name : option string;
  fd_size : option float
}.

Record FilterDict : Type := mkFilterDict {
  fltr_level  : option Z;
  fltr_greedy : option bool;
  fltr_font   : option FontDict
}.

Record ToCFilter : Type := mkToCFilter {
  level     : Z;
  greedy    : bool;
  font_name : option string;
  font_size : option float
}.

(** [fltr_dict.get('font', {}).get(k)]. *)
Definition font_get {A} (d : FilterDict) (k : FontDict -> option A)
  : option A :=
  k (get_default (fltr_font d) (mkFontDict None None)).

(** [ToCFilter.__init__]. *)
Definition init (fltr_dict : FilterDict) : result ToCFilter :=
  match fltr_level fltr_dict with
  | None => Raise (ValueError "filter's 'level' is not set")
  | Some lvl =>
      if lvl <? 1 then Raise (ValueError "filter's 'level' must be >= 1")
      else Ok {| level := lvl;
                 greedy := get_default (fltr_greedy fltr_dict) false;
                 font_name := font_get fltr_dict fd_name;
                 font_size := font_get fltr_dict fd_size |}
  end.

(** [a != b] between a [str] and the result of [dict.get]. *)
Definition str_ne (a : string) (b : option string) : bool :=
  match b with
  | Some b' => negb (String.eqb a b')
  | None => true
  end.

(** [a == b] between a [float] and the result of [dict.get]. *)
Definition float_eq (a : float) (b : option float) : bool :=
  match b with
  | Some b' => PrimFloat.eqb a b'
  | None => false
  end.

(** [ToCFilter.admits]. *)
Definition admits (self : ToCFilter) (spn : Span) : bool :=
  if match font_name self with
     | Some n => str_ne n (sp_font spn)
     | None => false
     end
  then false
  else match font_size self with
       | None => true
       | Some sz => float_eq sz (sp_size spn)
       end.

End Filter.

(* ================================================================== *)
(** ** [src/pdfxmeta/pdfxmeta.py] *)
(* ================================================================== *)

Module Pdfxmeta.

(** Python's [re] module: compiling a pattern (with or without
    [re.IGNORECASE]) may fail; [regex.search(text)] is read for its truth
    value only. *)
Class Re : Type := {
  regex : Type;
  re_compile : string -> bool -> option regex;
  re_search : regex -> string -> bool
}.

(** [toml.encoder]'s [_dump_str] and [_dump_float]. *)
Class TomlEncoder : Type := {
  _dump_str : string -> string;
  _dump_float : float -> string
}.

(** A [fitz.Document]: its pages, each given by the dictionary that
    [page.get_textpage().extractDICT()] returns. *)
Definition Document : Type := list PageMeta.

Definition page_count (doc : Document) : Z := Z.of_nat (List.length doc).

(** [doc[i]] for [i >= 0]. *)
Definition doc_getitem (doc : Document) (i : Z) : result PageMeta :=
  match nth_error doc (Z.to_nat i) with
  | Some p => Ok p
  | None => Raise IndexError
  end.

Section WithRe.
Context {re : Re}.

(** [search_in_page(regex, page)]. *)
Definition search_in_page (rx : regex) (page : PageMeta) : list Span :=
  fold_left (fun result blk =>
    fold_left (fun result ln =>
      fold_left (fun result spn =>
        let text := get_default (sp_text spn) EmptyString in
        if re_search rx text then (result ++ [spn])%list else result)
        (get_default (ln_spans ln) []) result)
      (get_default (blk_lines blk) []) result)
    (get_default (pg_blocks page) []) [].

(** [extract_meta(doc, pattern, page, ign_case)]. *)
Definition extract_meta (doc : Document) (pattern : string)
    (page : option Z) (ign_case : bool) : result (list Span) :=
  let result0 : list Span := [] in
  pages <- match page with
           | None => Ok (Some doc)
           | Some p =>
               if (1 <=? p) && (p <=? page_count doc)
               then pg <- doc_getitem doc (p - 1) ;; Ok (Some [pg])
               else Ok None
           end ;;
  match pages with
  | None => Ok result0
  | Some pages =>
      match re_compile pattern ign_case with
      | None => Raise (ReError pattern)
      | Some rx =>
          Ok (fold_left (fun result p => (result ++ search_in_page rx p)%list)
                pages result0)
      end
  end.

End WithRe.

(** [blk_to_str(blk)]. *)
Definition blk_to_str (blk : Block) : string :=
  join " "
    (flat_map (fun line =>
       map (fun spn => strip (get_default (sp_text spn) EmptyString))
           (get_default (ln_spans line) []))
       (get_default (blk_lines blk) [])).

(** [to_bools(var)]. *)
Definition to_bools (var : Z) : string :=
  if negb (var =? 0) then "true" else "false".

(** The font name that [dump_toml] writes: the subset prefix is dropped. *)
Definition strip_subset_prefix (font : string) : string :=
  let '(before, sep, after) := partition "+" font in
  if truthy sep then after else before.

Section WithToml.
Context {enc : TomlEncoder}.

(** [dump_toml(spn, level, trail_nl)], as the list of lines it joins. *)
Definition dump_toml_lines (spn : Span) (level : Z) (trail_nl : bool)
  : result (list string) :=
  let result := ["[[heading]]";
                 "# " ++ get_default (sp_text spn) EmptyString;
                 "level = " ++ str_of_int level;
                 "greedy = true"] in
  name <- getitem "font" (sp_font spn) ;;
  let font := strip_subset_prefix name in
  let result := app result ["font.name = " ++ _dump_str font] in
  size <- getitem "size" (sp_size spn) ;;
  let result := app result ["font.size = " ++ _dump_float size;
                            "# font.size_tolerance = 1e-5"] in
  color <- getitem "color" (sp_color spn) ;;
  let result := app result ["# font.color = " ++ format_x08 color] in
  flags <- getitem "flags" (sp_flags spn) ;;
  let result := app result
    ["# font.superscript = " ++ to_bools (Z.land flags 1);
     "# font.italic = " ++ to_bools (Z.land flags 2);
     "# font.serif = " ++ to_bools (Z.land flags 4);
     "# font.monospace = " ++ to_bools (Z.land flags 8);
     "# font.bold = " ++ to_bools (Z.land flags 16)] in
  bbox <- getitem "bbox" (sp_bbox spn) ;;
  let '(x0, y0, x1, y1) := bbox in
  let result := app result
    ["# bbox.left = " ++ _dump_float x0;
     "# bbox.top = " ++ _dump_float y0;
     "# bbox.right = " ++ _dump_float x1;
     "# bbox.bottom = " ++ _dump_float y1;
     "# bbox.tolerance = 1e-5"] in
  Ok (if trail_nl then app result [EmptyString] else result).

Definition newline : string := String (ascii_of_nat 10) EmptyString.

Definition dump_toml (spn : Span) (level : Z) (trail_nl : bool)
  : result string :=
  lines <- dump_toml_lines spn level trail_nl ;;
  Ok (join newline lines).

End WithToml.

End Pdfxmeta.

(* ================================================================== *)
(** ** Hierarchy builder and notation codec *)
(* ================================================================== *)

Module ToC.

Import Filter.

(** Modelled from the spec: the ToC tree of section 3.  The repository
    imports its builder from [pdftocgen.tocgen] and its codec from
    [fitzutils] and [pdftocio.tocparser]; none of them is among the source
    files, so everything in this module follows sections 3, 4.2 and 4.3. *)
Inductive ToCEntry : Type := mkToCEntry {
  title    : string;
  level    : Z;
  page     : Z;
  vpos     : option float;
  children : list ToCEntry
}.

(** Modelled from the spec: a matched heading, that is the content of a new
    leaf before it is inserted (section 4.2, step 3). *)
Record Heading : Type := mkHeading {
  h_level : Z;
  h_title : string;
  h_page  : Z;
  h_vpos  : option float
}.

Definition new_leaf (h : Heading) : ToCEntry :=
  mkToCEntry (h_title h) (h_level h) (h_page h) (h_vpos h) [].

Definition heading_of (e : ToCEntry) : Heading :=
  mkHeading (level e) (title e) (page e) (vpos e).

(** [parent.children.append(child)]. *)
Definition add_child (parent child : ToCEntry) : ToCEntry :=
  mkToCEntry (title parent) (level parent) (page parent) (vpos parent)
             (children parent ++ [child])%list.

(** Modelled from the spec: the state of the insertion routine of section
    4.2, step 4.  [stack] holds the open entries, innermost first; they are
    the right spine of the forest built so far.  An open entry that lies on
    the stack is the last child of the entry below it (of the forest, for
    the bottom one); it is written into that place when it is popped, once
    no more children can be added to it.  [roots] holds the top-level
    entries that are already closed. *)
Record Builder : Type := mkBuilder {
  roots : list ToCEntry;
  stack : list ToCEntry
}.

Definition empty : Builder := mkBuilder [] [].

Definition pop (b : Builder) : Builder :=
  match stack b with
  | [] => b
  | [e] => mkBuilder (roots b ++ [e])%list []
  | e :: parent :: below => mkBuilder (roots b) (add_child parent e :: below)
  end.

(** [while stack and stack[-1].level >= L: stack.pop()]; the loop runs at
    most once per open entry. *)
Fixpoint pop_while (fuel : nat) (L : Z) (b : Builder) : Builder :=
  match fuel with
  | O => b
  | S fuel' =>
      match stack b with
      | [] => b
      | top :: _ => if L <=? level top then pop_while fuel' L (pop b) else b
      end
  end.

Definition pop_ge (L : Z) (b : Builder) : Builder :=
  pop_while (List.length (stack b)) L b.

(** Modelled from the spec: insertion of a new leaf (section 4.2, step 4).
    After the pops the entry on top of the stack, if any, is the parent;
    the new entry is pushed above it. *)
Definition insert (h : Heading) (b : Builder) : Builder :=
  let b' := pop_ge (h_level h) b in
  mkBuilder (roots b') (new_leaf h :: stack b').

(** The forest once every open entry is closed. *)
Fixpoint close (fuel : nat) (b : Builder) : Builder :=
  match fuel with
  | O => b
  | S fuel' => close fuel' (pop b)
  end.

Definition forest_of (b : Builder) : list ToCEntry :=
  roots (close (List.length (stack b)) b).

Definition build_from (b : Builder) (hs : list Heading) : Builder :=
  fold_left (fun b h => insert h b) hs b.

(** Modelled from the spec: section 4.2, step 4 over a whole stream of
    matched headings. *)
Definition build (hs : list Heading) : list ToCEntry :=
  forest_of (build_from empty hs).

(** Depth-first, pre-order traversal in sibling order. *)
Fixpoint preorder_entry (e : ToCEntry) : list Heading :=
  match e with
  | mkToCEntry t l p v cs =>
      mkHeading l t p v ::
      (fix go (cs : list ToCEntry) : list Heading :=
         match cs with
         | [] => []
         | c :: cs' => (preorder_entry c ++ go cs')%list
         end) cs
  end.

Definition preorder (forest : list ToCEntry) : list Heading :=
  flat_map preorder_entry forest.

(** *** Section 4.2, steps 1 to 3: from spans to matched headings *)

(** Modelled from the spec: step 1, the first declared filter that admits
    the span wins. *)
Definition winning_filter (filters : list ToCFilter) (s : Span)
  : option ToCFilter :=
  find (fun f => admits f s) filters.

(** Modelled from the spec: step 2, a greedy filter takes the text of the
    whole enclosing block, through [blk_to_str] of the source. *)
Definition heading_title (f : ToCFilter) (blk : Block) (s : Span) : string :=
  if greedy f then Pdfxmeta.blk_to_str blk
  else get_default (sp_text s) EmptyString.

Definition bbox_top (s : Span) : option float :=
  match sp_bbox s with
  | Some (_, top, _, _) => Some top
  | None => None
  end.

(** Modelled from the spec: step 3. *)
Definition new_heading (with_vpos : bool) (f : ToCFilter) (pageno : Z)
    (blk : Block) (s : Span) : Heading :=
  mkHeading (Filter.level f) (heading_title f blk s) pageno
            (if with_vpos then bbox_top s else None).

Definition block_headings (with_vpos : bool) (filters : list ToCFilter)
    (pageno : Z) (blk : Block) : list Heading :=
  flat_map (fun ln =>
    flat_map (fun s =>
      match winning_filter filters s with
      | Some f => [new_heading with_vpos f pageno blk s]
      | None => []
      end) (get_default (ln_spans ln) []))
    (get_default (blk_lines blk) []).

Definition page_headings (with_vpos : bool) (filters : list ToCFilter)
    (pageno : Z) (pg : PageMeta) : list Heading :=
  flat_map (block_headings with_vpos filters pageno)
           (get_default (pg_blocks pg) []).

(** Pages are numbered from [first]. *)
Fixpoint doc_headings (with_vpos : bool) (filters : list ToCFilter)
    (first : Z) (doc : list PageMeta) : list Heading :=
  match doc with
  | [] => []
  | pg :: rest =>
      (page_headings with_vpos filters first pg
       ++ doc_headings with_vpos filters (first + 1) rest)%list
  end.

(** Modelled from the spec: the recipe's filters are all constructed before
    the walk over the spans starts (sections 4.2 and 7). *)
Fixpoint make_filters (recipe : list FilterDict) : result (list ToCFilter) :=
  match recipe with
  | [] => Ok []
  | d :: rest =>
      f <- Filter.init d ;;
      fs <- make_filters rest ;;
      Ok (f :: fs)
  end.

(** Modelled from the spec: the hierarchy builder of section 4.2. *)
Definition hierarchy_builder (with_vpos : bool) (filters : list ToCFilter)
    (doc : list PageMeta) : list ToCEntry :=
  build (doc_headings with_vpos filters 1 doc).

Definition gen_toc (with_vpos : bool) (recipe : list FilterDict)
    (doc : list PageMeta) : result (list ToCEntry) :=
  filters <- make_filters recipe ;;
  Ok (hierarchy_builder with_vpos filters doc).

(** *** Section 4.3: the notation *)

(** The fixed-precision rendering of a vertical position and its reading;
    the spec fixes neither the precision nor the syntax. *)
Class VposCodec : Type := {
  format_vpos : float -> string;
  parse_vpos : string -> option float
}.

Definition newline : string := String (ascii_of_nat 10) EmptyString.
Definition separator : string := " | ".

Section Codec.
Context {codec : VposCodec}.

(** Modelled from the spec: one line of the dump. *)
Definition dump_line (with_vpos : bool) (h : Heading) : string :=
  repeat_str "  " (Z.to_nat (h_level h - 1)) ++ h_title h
  ++ separator ++ str_of_int (h_page h)
  ++ (if with_vpos
      then match h_vpos h with
           | Some v => separator ++ format_vpos v
           | None => EmptyString
           end
      else EmptyString).

(** Modelled from the spec: the dump of section 4.3, one line per entry in
    pre-order. *)
Definition dump (with_vpos : bool) (forest : list ToCEntry) : string :=
  fold_right (fun h rest => dump_line with_vpos h ++ newline ++ rest)
             EmptyString (preorder forest).

Fixpoint leading_spaces (s : string) : nat :=
  match s with
  | String c s' => if Ascii.eqb c " " then S (leading_spaces s') else O
  | EmptyString => O
  end.

(** A page field is a run of decimal digits that denotes a positive
    integer. *)
Definition parse_page (field : string) : option Z :=
  match DecimalString.NilZero.uint_of_string field with
  | Some d => let n := Z.of_uint d in if 1 <=? n then Some n else None
  | None => None
  end.

(** Modelled from the spec: one line of the notation read back. *)
Definition parse_line (ln : string) : option Heading :=
  let pairs := Nat.div (leading_spaces ln) 2 in
  let lvl := Z.of_nat pairs + 1 in
  let remainder := drop (2 * pairs) ln in
  match rpartition separator remainder with
  | None => None
  | Some (left1, right1) =>
      match rpartition separator left1 with
      | Some (left2, right2) =>
          match parse_page right2, parse_vpos right1 with
          | Some p, Some v => Some (mkHeading lvl (strip left2) p (Some v))
          | _, _ => None
          end
      | None =>
          match parse_page right1 with
          | Some p => Some (mkHeading lvl (strip left1) p None)
          | None => None
          end
      end
  end.

Definition blank (ln : string) : bool := negb (truthy (strip ln)).

Fixpoint parse_lines (lineno : nat) (lines : list string) (b : Builder)
  : result Builder :=
  match lines with
  | [] => Ok b
  | ln :: rest =>
      if blank ln then parse_lines (S lineno) rest b
      else match parse_line ln with
           | Some h => parse_lines (S lineno) rest (insert h b)
           | None => Raise (ParseError lineno)
           end
  end.

(** Modelled from the spec: the parser of section 4.3; it rebuilds the
    forest with the insertion routine of the builder. *)
Definition parse (text : string) : result (list ToCEntry) :=
  b <- parse_lines 1 (split_char (ascii_of_nat 10) text) empty ;;
  Ok (forest_of b).

End Codec.

(** *** A codec for vertical positions *)

(** [v * 10 ** digits] rounded to the nearest integer, ties to even, for a
    finite float that is not negative. *)
Definition scaled (digits : nat) (v : float) : option Z :=
  match FloatOps.Prim2SF v with
  | SpecFloat.S754_zero _ => Some 0
  | SpecFloat.S754_finite false m e =>
      let num := Z.pos m * 10 ^ Z.of_nat digits in
      if 0 <=? e then Some (num * 2 ^ e)
      else
        let den := 2 ^ (- e) in
        let q := num / den in
        Some (match 2 * (num mod den) ?= den with
              | Lt => q
              | Gt => q + 1
              | Eq => if Z.even q then q else q + 1
              end)
  | _ => None
  end.

(** ["%.{digits}f" % v]; a negative, infinite or undefined position is
    written [nan]. *)
Definition format_fixed (digits : nat) (v : float) : string :=
  match scaled digits v with
  | Some n =>
      let unit := 10 ^ Z.of_nat digits in
      let frac := str_of_int (n mod unit) in
      str_of_int (n / unit) ++
      match digits with
      | O => EmptyString
      | _ => "." ++ zeros (digits - String.length frac) ++ frac
      end
  | None => "nan"
  end.

(** [float(field)] for a field made of digits, with or without a point and
    more digits, and of at most 53 bits once the point is taken out. *)
Definition parse_fixed (field : string) : option float :=
  let '(whole, _, frac) := partition "." field in
  match DecimalString.NilZero.uint_of_string (whole ++ frac) with
  | Some d =>
      let n := Z.of_uint d in
      let unit := 10 ^ Z.of_nat (String.length frac) in
      if (n <? 2 ^ 53) && (unit <? 2 ^ 53)
      then Some (PrimFloat.div (PrimFloat.of_uint63 (Uint63.of_Z n))
                               (PrimFloat.of_uint63 (Uint63.of_Z unit)))
      else None
  | None => None
  end.

(** Modelled from the spec: a fixed-precision codec (section 4.3), with the
    number of decimals left open. *)
Definition fixed_codec (digits : nat) : VposCodec :=
  {| format_vpos := format_fixed digits; parse_vpos := parse_fixed |}.

End ToC.

(* ================================================================== *)
(** ** [src/pdfxmeta/pdfxmeta.py]: the recipe generator and [dump_meta] *)
(* ================================================================== *)

Module Recipe.

Import Pdfxmeta.

(** What a call can raise here: the exceptions of [Py], and the two that
    the generator runs into. *)
Inductive raised : Type :=
| Exn (e : exn)
| TypeError (msg : string)
| NameError (name : string).

(** The value returned, or what was raised. *)
Definition outcome (A : Type) : Type := (A + raised)%type.

Definition ret {A} (a : A) : outcome A := inl a.
Definition raise {A} (r : raised) : outcome A := inr r.

Definition and_then {A B} (o : outcome A) (k : A -> outcome B) : outcome B :=
  match o with
  | inl a => k a
  | inr r => inr r
  end.

Definition lift {A} (r : result A) : outcome A :=
  match r with
  | Ok a => inl a
  | Raise e => inr (Exn e)
  end.

(** [t[key]] for a tuple [t] and a [str] key. *)
Definition tuple_getitem {A} (key : string) : outcome A :=
  raise (TypeError "tuple indices must be integers or slices, not str").

(** [get_spans(doc, page)]; its last branch returns the name [result],
    which the function never binds. *)
Definition get_spans (doc : Document) (page : option Z)
  : outcome (list Span) :=
  let all_spans : list Span := [] in
  and_then
    match page with
    | None => ret doc
    | Some p =>
        if (1 <=? p) && (p <=? page_count doc)
        then and_then (lift (doc_getitem doc (p - 1))) (fun pg => ret [pg])
        else raise (NameError "result")
    end
    (fun pages =>
       ret (fold_left (fun all_spans p =>
              fold_left (fun all_spans blk =>
                fold_left (fun all_spans ln =>
                  (all_spans ++ get_default (ln_spans ln) [])%list)
                  (get_default (blk_lines blk) []) all_spans)
                (get_default (pg_blocks p) []) all_spans)
              pages all_spans)).

(** A [dict] keyed by font size, in insertion order; keys are compared
    with [==]. *)
Definition SizeDict : Type := list (float * list Span).

(** [d.setdefault(key, []).append(sp)]. *)
Fixpoint setdefault_append (key : float) (sp : Span) (d : SizeDict)
  : SizeDict :=
  match d with
  | [] => [(key, [sp])]
  | (k, v) :: d' =>
      if PrimFloat.eqb k key then (k, (v ++ [sp])%list) :: d'
      else (k, v) :: setdefault_append key sp d'
  end.

(** [sorted(items, key=lambda item: item[0])]: stable, by [<]. *)
Fixpoint insert_sorted (x : float * list Span) (l : SizeDict) : SizeDict :=
  match l with
  | [] => [x]
  | y :: l' =>
      if PrimFloat.ltb (fst x) (fst y) then x :: l
      else y :: insert_sorted x l'
  end.

Definition sorted_by_size (items : SizeDict) : SizeDict :=
  fold_left (fun acc x => insert_sorted x acc) items [].

Section WithToml.
Context {enc : TomlEncoder}.

(** [dump_meta(spn)], as the list of lines it joins. *)
Definition dump_meta_lines (spn : Span) : result (list string) :=
  let result : list string := [] in
  name <- getitem "font" (sp_font spn) ;;
  let result := app result ["font.name = " ++ _dump_str name] in
  size <- getitem "size" (sp_size spn) ;;
  let result := app result ["font.size = " ++ _dump_float size] in
  color <- getitem "color" (sp_color spn) ;;
  let result := app result ["font.color = " ++ format_x08 color] in
  flags <- getitem "flags" (sp_flags spn) ;;
  let result := app result
    ["font.superscript = " ++ to_bools (Z.land flags 1);
     "font.italic = " ++ to_bools (Z.land flags 2);
     "font.serif = " ++ to_bools (Z.land flags 4);
     "font.monospace = " ++ to_bools (Z.land flags 8);
     "font.bold = " ++ to_bools (Z.land flags 16)] in
  bbox <- getitem "bbox" (sp_bbox spn) ;;
  let '(x0, y0, x1, y1) := bbox in
  let result := app result
    ["bbox.left = " ++ _dump_float x0;
     "bbox.top = " ++ _dump_float y0;
     "bbox.right = " ++ _dump_float x1;
     "bbox.bottom = " ++ _dump_float y1] in
  Ok result.

Definition dump_meta (spn : Span) : result string :=
  lines <- dump_meta_lines spn ;;
  Ok (join Pdfxmeta.newline lines).

(** The body of the loop of [generate_recipe_from_spans] for index [i]:
    [sp] is an item of the sorted dictionary, a tuple, and is then indexed
    like a span. *)
Definition recipe_entry (i : nat) (sp : float * list Span)
    (result : list string) : outcome (list string) :=
  let result := app result ["[[heading]]";
                            "level = " ++ str_of_int (Z.of_nat i + 1)] in
  and_then (tuple_getitem "font") (fun font : string =>
  let result := app result ["font.name = " ++ _dump_str font] in
  and_then (tuple_getitem "size") (fun size : float =>
  let result := app result ["font.size = " ++ _dump_float size;
                            "# font.size_tolerance = 1e-5"] in
  and_then (tuple_getitem "color") (fun color : Z =>
  let result := app result ["# font.color = " ++ format_x08 color] in
  and_then (tuple_getitem "flags") (fun flags : Z =>
  let result := app result
    ["# font.superscript = " ++ to_bools (Z.land flags 1);
     "# font.italic = " ++ to_bools (Z.land flags 2);
     "# font.serif = " ++ to_bools (Z.land flags 4);
     "# font.monospace = " ++ to_bools (Z.land flags 8);
     "# font.bold = " ++ to_bools (Z.land flags 16)] in
  and_then (tuple_getitem "bbox")
    (fun bbox : float * float * float * float =>
  let '(x0, y0, x1, y1) := bbox in
  ret (app result
    ["# bbox.left = " ++ _dump_float x0;
     "# bbox.top = " ++ _dump_float y0;
     "# bbox.right = " ++ _dump_float x1;
     "# bbox.bottom = " ++ _dump_float y1;
     "# bbox.tolerance = 1e-5"])))))).

(** [for i in range(len(items))]. *)
Fixpoint recipe_entries (i : nat) (items : SizeDict) (result : list string)
  : outcome (list string) :=
  match items with
  | [] => ret result
  | sp :: rest =>
      and_then (recipe_entry i sp result) (recipe_entries (S i) rest)
  end.

(** The first loop of [generate_recipe_from_spans]: the spans grouped by
    [sp['size']]. *)
Fixpoint group_by_size (spans : list Span) (spans_by_size : SizeDict)
  : outcome SizeDict :=
  match spans with
  | [] => ret spans_by_size
  | sp :: rest =>
      and_then (lift (getitem "size" (sp_size sp))) (fun font_size =>
      group_by_size rest (setdefault_append font_size sp spans_by_size))
  end.

(** [generate_recipe_from_spans(spans)]. *)
Definition generate_recipe_from_spans (spans : list Span)
  : outcome (list string) :=
  let result : list string := [] in
  and_then (group_by_size spans []) (fun spans_by_size =>
  let spans_by_size_sorted := sorted_by_size spans_by_size in
  if (1 <=? List.length spans_by_size_sorted)%nat
  then recipe_entries 0 spans_by_size_sorted result
  else ret result).

(** [generate_recipe(doc, recipe_file, page, ign_case)], as the module
    leaves it bound after its last definition. *)
Definition generate_recipe (doc : Document) (recipe_file : string)
    (page : option Z) (ign_case : bool) : outcome (list string) :=
  and_then (get_spans doc page) generate_recipe_from_spans.

End WithToml.

End Recipe.

(* ================================================================== *)
(** * Properties of [filter.py] *)
(* ================================================================== *)

Module FilterFacts.

Import Filter.

Lemma str_ne_false (a : string) (b : option string) :
  str_ne a b = false <-> b = Some a.
Proof.
  destruct b as [b'|]; cbn.
  - rewrite negb_false_iff, String.eqb_eq.
    split; [intros -> | intros [= ->]]; reflexivity.
  - split; discriminate.
Qed.

Lemma float_eq_true (x : float) (b : option float) :
  float_eq x b = true <-> exists y, b = Some y /\ PrimFloat.eqb x y = true.
Proof.
  destruct b as [y|]; cbn.
  - split; [intros E; exists y; auto | intros (y' & [= <-] & E); exact E].
  - split; [discriminate | intros (y' & [=] & _)].
Qed.

(** What [admits] decides, attribute by attribute: a font name that is set
    must be the span's font name, a font size that is set must compare
    equal ([==]) to the span's size. *)
Lemma admits_spec (f : ToCFilter) (s : Span) :
  admits f s = true <->
  (forall n, font_name f = Some n -> sp_font s = Some n) /\
  (forall x, font_size f = Some x ->
     exists y, sp_size s = Some y /\ PrimFloat.eqb x y = true).
Proof.
  unfold admits.
  destruct (font_name f) as [n|].
  - destruct (str_ne n (sp_font s)) eqn:Hne.
    + split; [discriminate | intros [Hn _]].
      assert (str_ne n (sp_font s) = false) as E
        by (apply str_ne_false, Hn; reflexivity).
      congruence.
    + apply str_ne_false in Hne.
      destruct (font_size f) as [x|].
      * rewrite float_eq_true. split.
        -- intros Hx. split; [intros ? [= <-]; exact Hne
                             | intros ? [= <-]; exact Hx].
        -- intros [_ Hx]. apply Hx. reflexivity.
      * split; [intros _ | reflexivity].
        split; [intros ? [= <-]; exact Hne | discriminate].
  - destruct (font_size f) as [x|].
    + rewrite float_eq_true. split.
      * intros Hx. split; [discriminate | intros ? [= <-]; exact Hx].
      * intros [_ Hx]. apply Hx. reflexivity.
    + split; [intros _ | reflexivity]. split; discriminate.
Qed.

(** The recipe entry [level = 1, font.size = 19.9253] and a span as
    PyMuPDF reports it, of size 19.92530059814453. *)
Definition entry_19_9253 : FilterDict :=
  mkFilterDict (Some 1) None (Some (mkFontDict None (Some 19.9253%float))).

Definition span_19_9253 : Span :=
  mkSpan (Some "Chapter 1") (Some "Times-Bold")
         (Some 19.92530059814453%float) (Some 20) (Some 0) None.

(** C1.  The size test of [admits] is [==], with no tolerance: a span whose
    size lies within [DEF_TOLERANCE] of the filter's [font_size] (so that
    [admits_float] accepts it) is rejected unless the two floats are equal.
    Here the filter built from [entry_19_9253] meets [span_19_9253], whose
    size differs by less than 1e-6. *)
Theorem admits_skips_size_tolerance :
  exists f, init entry_19_9253 = Ok f /\
    admits_float (font_size f) (sp_size span_19_9253) DEF_TOLERANCE = true /\
    admits f span_19_9253 = false.
Proof.
  eexists. split; [reflexivity | split; reflexivity].
Qed.

(** Within a filter whose font name is unset, the size test is exactly the
    float comparison [==]. *)
Lemma admits_size_is_float_eq (f : ToCFilter) (s : Span) (x : float) :
  font_name f = None -> font_size f = Some x ->
  admits f s = float_eq x (sp_size s).
Proof.
  intros Hn Hx. unfold admits. rewrite Hn, Hx. reflexivity.
Qed.

(** C2.  [ToCFilter.__init__] raises [ValueError] (the error the front end
    reports as an invalid recipe) when [level] is missing or below 1, and
    returns a filter of that level for every entry whose level is at least
    1.  The constructor reads the recipe entry only, no span. *)
Theorem init_checks_level (d : FilterDict) :
  (fltr_level d = None ->
     init d = Raise (ValueError "filter's 'level' is not set")) /\
  (forall lvl, fltr_level d = Some lvl -> lvl < 1 ->
     init d = Raise (ValueError "filter's 'level' must be >= 1")) /\
  (forall lvl, fltr_level d = Some lvl -> 1 <= lvl ->
     exists f, init d = Ok f /\ level f = lvl).
Proof.
  unfold init. repeat split.
  - intros ->. reflexivity.
  - intros lvl -> Hlt. apply Z.ltb_lt in Hlt. rewrite Hlt. reflexivity.
  - intros lvl -> Hge. apply Z.ltb_ge in Hge. rewrite Hge.
    eexists. split; reflexivity.
Qed.

Lemma init_checks_level_witness :
  init (mkFilterDict None None None)
    = Raise (ValueError "filter's 'level' is not set") /\
  init (mkFilterDict (Some 0) (Some true) None)
    = Raise (ValueError "filter's 'level' must be >= 1") /\
  exists f, init entry_19_9253 = Ok f /\ level f = 1.
Proof.
  split; [| split].
  - apply (proj1 (init_checks_level (mkFilterDict None None None))).
    reflexivity.
  - apply (proj1 (proj2 (init_checks_level
             (mkFilterDict (Some 0) (Some true) None))) 0); [reflexivity | lia].
  - apply (proj2 (proj2 (init_checks_level entry_19_9253)) 1);
      [reflexivity | lia].
Defined.

(** A filter that [init] returns has a level of at least 1. *)
Lemma init_level_ge_1 (d : FilterDict) (f : ToCFilter) :
  init d = Ok f -> 1 <= level f.
Proof.
  unfold init. destruct (fltr_level d) as [lvl|]; [| discriminate].
  destruct (lvl <? 1) eqn:E; [discriminate |].
  intros [= <-]. cbn. apply Z.ltb_ge. exact E.
Qed.

(** C6.  A filter whose font name is set admits a span only if the span's
    font name is that very string: the comparison is [!=] on the strings as
    they are, so letter case and a subset prefix both count. *)
Theorem admits_font_name_exact (f : ToCFilter) (s : Span) (n : string) :
  font_name f = Some n -> admits f s = true -> sp_font s = Some n.
Proof.
  intros Hn Ha. apply admits_spec in Ha. destruct Ha as [Hname _].
  apply Hname. exact Hn.
Qed.

Definition times_filter : ToCFilter :=
  mkToCFilter 1 false (Some "Times-Bold") None.

Definition span_with_font (name : string) : Span :=
  mkSpan (Some "Chapter 1") (Some name) (Some 12%float) (Some 20) (Some 0)
         None.

Lemma admits_font_name_exact_witness :
  sp_font (span_with_font "Times-Bold") = Some "Times-Bold".
Proof.
  apply (admits_font_name_exact times_filter (span_with_font "Times-Bold")
           "Times-Bold"); reflexivity.
Defined.

(** Neither a subset prefix nor a change of letter case is read away. *)
Example admits_font_name_prefix :
  admits times_filter (span_with_font "ABCDEF+Times-Bold") = false.
Proof. reflexivity. Qed.

Example admits_font_name_case :
  admits times_filter (span_with_font "times-bold") = false.
Proof. reflexivity. Qed.

(** C7.  Unset attributes are wildcards.  With the font name unset, a filter
    with no font size admits every span, and a filter with a font size
    admits every span whose size compares equal to it, whatever the span's
    font name is (even a missing one). *)
Theorem admits_wildcards (f : ToCFilter) (s : Span) :
  font_name f = None ->
  (font_size f = None -> admits f s = true) /\
  (forall x y, font_size f = Some x -> sp_size s = Some y ->
     PrimFloat.eqb x y = true ->
     forall name, admits f (mkSpan (sp_text s) name (sp_size s) (sp_flags s)
                                   (sp_color s) (sp_bbox s)) = true).
Proof.
  intros Hn. split.
  - intros Hs. apply admits_spec. rewrite Hn, Hs. split; discriminate.
  - intros x y Hx Hy E name. apply admits_spec. rewrite Hn, Hx. cbn.
    split; [discriminate |]. intros ? [= <-]. exists y. auto.
Qed.

Definition size_only_filter : ToCFilter :=
  mkToCFilter 2 false None (Some 12%float).

Lemma admits_wildcards_witness :
  admits (mkToCFilter 1 false None None) (span_with_font "Courier") = true /\
  admits size_only_filter
    (mkSpan (Some "Chapter 1") (Some "Helvetica") (Some 12%float) (Some 20)
            (Some 0) None) = true.
Proof.
  split.
  - apply (proj1 (admits_wildcards (mkToCFilter 1 false None None)
                    (span_with_font "Courier") eq_refl)). reflexivity.
  - apply (proj2 (admits_wildcards size_only_filter
                    (span_with_font "Courier") eq_refl)
             12%float 12%float); reflexivity.
Defined.

(** C9.  [admits] reads the span with [dict.get] and compares with [!=]
    and [==], none of which can raise: it is a total function to [bool].
    A missing [font] key fails a filter whose font name is set, a missing
    [size] key fails a filter whose font size is set. *)
Theorem admits_missing_key (f : ToCFilter) (s : Span) :
  (font_name f <> None -> sp_font s = None -> admits f s = false) /\
  (font_size f <> None -> sp_size s = None -> admits f s = false).
Proof.
  unfold admits. split.
  - destruct (font_name f) as [n|]; [| congruence].
    intros _ ->. reflexivity.
  - destruct (font_size f) as [x|]; [| congruence].
    intros _ ->. cbn. destruct (font_name f) as [n|]; [| reflexivity].
    destruct (str_ne n (sp_font s)); reflexivity.
Qed.

Lemma admits_missing_key_witness :
  admits times_filter (mkSpan (Some "Chapter 1") None (Some 12%float)
                              None None None) = false /\
  admits size_only_filter (mkSpan (Some "Chapter 1") (Some "Times-Bold")
                                  None None None None) = false.
Proof.
  split.
  - apply (proj1 (admits_missing_key times_filter
             (mkSpan (Some "Chapter 1") None (Some 12%float) None None None)));
      [discriminate | reflexivity].
  - apply (proj2 (admits_missing_key size_only_filter
             (mkSpan (Some "Chapter 1") (Some "Times-Bold") None None None
                     None))); [discriminate | reflexivity].
Defined.

End FilterFacts.

(* ================================================================== *)
(** * Properties of [pdfxmeta.py] *)
(* ================================================================== *)

Module PdfxmetaFacts.

Import Pdfxmeta.

(** *** [partition] *)

Lemma partition_absent (c : ascii) (s : string) :
  contains_char c s = false ->
  partition c s = (s, EmptyString, EmptyString).
Proof.
  induction s as [|a s IH]; cbn; [reflexivity |].
  intros H. apply orb_false_iff in H. destruct H as [Hac Hs].
  rewrite Hac, (IH Hs). reflexivity.
Qed.

Lemma partition_first (c : ascii) (pre post : string) :
  contains_char c pre = false ->
  partition c (pre ++ String c post) = (pre, String c EmptyString, post).
Proof.
  induction pre as [|a pre IH]; cbn.
  - intros _. rewrite Ascii.eqb_refl. reflexivity.
  - intros H. apply orb_false_iff in H. destruct H as [Hac Hpre].
    rewrite Hac, (IH Hpre). reflexivity.
Qed.

Lemma strip_subset_prefix_absent (name : string) :
  contains_char "+" name = false -> strip_subset_prefix name = name.
Proof.
  intros H. unfold strip_subset_prefix.
  rewrite (partition_absent _ _ H). reflexivity.
Qed.

Lemma strip_subset_prefix_first (pre post : string) :
  contains_char "+" pre = false ->
  strip_subset_prefix (pre ++ "+" ++ post) = post.
Proof.
  intros H. unfold strip_subset_prefix. cbn [append].
  rewrite (partition_first _ _ _ H). reflexivity.
Qed.

(** C8.  For a span that carries every key, [dump_toml] succeeds and its
    [font.name] line holds the span's font name without the subset prefix:
    the name itself when it has no [+], the text after the first [+]
    otherwise. *)
Theorem dump_toml_font_name {enc : TomlEncoder}
    (text : option string) (name : string) (size : float) (flags color : Z)
    (bbox : float * float * float * float) (level : Z) (trail_nl : bool) :
  (exists lines,
     dump_toml_lines
       (mkSpan text (Some name) (Some size) (Some flags) (Some color)
               (Some bbox)) level trail_nl = Ok lines /\
     nth_error lines 4
       = Some ("font.name = " ++ _dump_str (strip_subset_prefix name))) /\
  (contains_char "+" name = false -> strip_subset_prefix name = name) /\
  (forall pre post, name = pre ++ "+" ++ post ->
     contains_char "+" pre = false -> strip_subset_prefix name = post).
Proof.
  split; [| split].
  - destruct bbox as [[[x0 y0] x1] y1]. unfold dump_toml_lines. cbn.
    eexists. split; [reflexivity |]. destruct trail_nl; reflexivity.
  - apply strip_subset_prefix_absent.
  - intros pre post -> H. apply strip_subset_prefix_first. exact H.
Qed.

(** An encoder to run [dump_toml] with: strings between quotes, every float
    as [0.0]. *)
Definition quote : string := String (ascii_of_nat 34) EmptyString.

Definition sample_encoder : TomlEncoder :=
  {| _dump_str := fun s => quote ++ s ++ quote;
     _dump_float := fun _ => "0.0" |}.

Lemma dump_toml_font_name_witness :
  strip_subset_prefix "Times-Bold" = "Times-Bold" /\
  strip_subset_prefix "ABCDEF+Times-Bold" = "Times-Bold" /\
  strip_subset_prefix "ABCDEF+Times+Bold" = "Times+Bold".
Proof.
  pose (bbox := (72%float, 90.5%float, 200%float, 110%float)).
  split; [| split].
  - apply (proj1 (proj2 (@dump_toml_font_name sample_encoder
             (Some "Chapter 1") "Times-Bold" 12%float 20 0 bbox 1 false))).
    reflexivity.
  - apply (proj2 (proj2 (@dump_toml_font_name sample_encoder
             (Some "Chapter 1") "ABCDEF+Times-Bold" 12%float 20 0 bbox 1
             false)) "ABCDEF" "Times-Bold"); reflexivity.
  - apply (proj2 (proj2 (@dump_toml_font_name sample_encoder
             (Some "Chapter 1") "ABCDEF+Times+Bold" 12%float 20 0 bbox 1
             false)) "ABCDEF" "Times+Bold"); reflexivity.
Defined.

(** [dump_toml] reads [font] with [spn['font']]: without the key it raises. *)
Example dump_toml_missing_font :
  @dump_toml sample_encoder
    (mkSpan (Some "Chapter 1") None (Some 12%float) (Some 20) (Some 0) None)
    1 false = Raise (KeyError "font").
Proof. reflexivity. Qed.

(** *** [extract_meta] *)

Section WithRe.
Context {re : Re}.

Lemma doc_getitem_in_range (doc : Document) (p : Z) :
  1 <= p <= page_count doc ->
  exists pg, nth_error doc (Z.to_nat (p - 1)) = Some pg /\
             doc_getitem doc (p - 1) = Ok pg.
Proof.
  intros Hp. unfold doc_getitem, page_count in *.
  destruct (nth_error doc (Z.to_nat (p - 1))) as [pg|] eqn:E.
  - exists pg. split; reflexivity.
  - apply nth_error_None in E. lia.
Qed.

(** C10.  With an explicit page number outside [1 .. page_count],
    [extract_meta] returns the empty list, before the pattern is even
    compiled; with a page number in range it searches that page and no
    other (and raises only if the pattern does not compile). *)
Theorem extract_meta_explicit_page (doc : Document) (pattern : string)
    (p : Z) (ign_case : bool) :
  (p < 1 \/ page_count doc < p ->
     extract_meta doc pattern (Some p) ign_case = Ok []) /\
  (1 <= p <= page_count doc ->
     exists pg, nth_error doc (Z.to_nat (p - 1)) = Some pg /\
       extract_meta doc pattern (Some p) ign_case
       = match re_compile pattern ign_case with
         | Some rx => Ok (search_in_page rx pg)
         | None => Raise (ReError pattern)
         end).
Proof.
  unfold extract_meta. split.
  - intros Hp.
    assert ((1 <=? p) && (p <=? page_count doc) = false) as ->
      by (apply andb_false_iff; rewrite Z.leb_gt, Z.leb_gt; lia).
    reflexivity.
  - intros Hp.
    assert ((1 <=? p) && (p <=? page_count doc) = true) as ->
      by (apply andb_true_iff; rewrite !Z.leb_le; lia).
    destruct (doc_getitem_in_range doc p Hp) as (pg & Hnth & ->).
    exists pg. split; [exact Hnth |]. cbn.
    destruct (re_compile pattern ign_case); reflexivity.
Qed.

End WithRe.

(** A matcher to run [extract_meta] with: the pattern is searched as a
    literal text. *)
Definition literal_re : Re :=
  {| regex := string;
     re_compile := fun pattern _ => Some pattern;
     re_search := fun rx text => contains rx text |}.

Definition page_of_texts (texts : list string) : PageMeta :=
  mkPageMeta (Some [mkBlock (Some [mkLine (Some
    (map (fun t => mkSpan (Some t) (Some "Times-Bold") (Some 12%float)
                          (Some 20) (Some 0) None) texts))])]).

Definition two_pages : Document :=
  [page_of_texts ["Chapter 1"; "body text"];
   page_of_texts ["Chapter 2"; "more text"]].

Lemma extract_meta_explicit_page_witness :
  @extract_meta literal_re two_pages "Chapter" (Some 0) false = Ok [] /\
  @extract_meta literal_re two_pages "Chapter" (Some 3) false = Ok [] /\
  exists pg, nth_error two_pages 1 = Some pg /\
    @extract_meta literal_re two_pages "Chapter" (Some 2) false
    = Ok (@search_in_page literal_re "Chapter" pg).
Proof.
  split; [| split].
  - apply (proj1 (@extract_meta_explicit_page literal_re two_pages
                    "Chapter" 0 false)). left. lia.
  - apply (proj1 (@extract_meta_explicit_page literal_re two_pages
                    "Chapter" 3 false)). right. cbn. lia.
  - apply (proj2 (@extract_meta_explicit_page literal_re two_pages
                    "Chapter" 2 false)). cbn. lia.
Defined.

(** The page that is searched gives its matching spans only. *)
Example extract_meta_page_2 :
  option_map (map sp_text)
    (match @extract_meta literal_re two_pages "Chapter" (Some 2) false with
     | Ok spans => Some spans
     | Raise _ => None
     end) = Some [Some "Chapter 2"].
Proof. reflexivity. Qed.

(** *** [blk_to_str] *)

(** The texts of a block's spans in block order, a missing [text] read as
    the empty text. *)
Definition block_texts (blk : Block) : list string :=
  flat_map (fun line =>
    map (fun spn => get_default (sp_text spn) EmptyString)
        (get_default (ln_spans line) []))
    (get_default (blk_lines blk) []).

Lemma blk_to_str_join (blk : Block) :
  blk_to_str blk = join " " (map strip (block_texts blk)).
Proof.
  unfold blk_to_str, block_texts. f_equal.
  induction (get_default (blk_lines blk) []) as [|line lines IH]; cbn.
  - reflexivity.
  - rewrite map_app, map_map, IH. reflexivity.
Qed.

End PdfxmetaFacts.

(* ================================================================== *)
(** * Properties of the hierarchy builder *)
(* ================================================================== *)

Module BuilderFacts.

Import Filter ToC.

(** *** Popping *)

Lemma pop_levels (b : Builder) :
  map level (stack (pop b)) = tl (map level (stack b)).
Proof.
  destruct b as [r [|e [|parent below]]]; reflexivity.
Qed.

Lemma pop_length (b : Builder) :
  List.length (stack (pop b)) = Nat.pred (List.length (stack b)).
Proof.
  destruct b as [r [|e [|parent below]]]; reflexivity.
Qed.

Lemma forest_of_pop (b : Builder) : forest_of (pop b) = forest_of b.
Proof.
  unfold forest_of. rewrite pop_length.
  destruct b as [r [|e st]]; reflexivity.
Qed.

Lemma forest_of_pop_while (fuel : nat) (L : Z) (b : Builder) :
  forest_of (pop_while fuel L b) = forest_of b.
Proof.
  revert b. induction fuel as [|fuel IH]; intros b; cbn; [reflexivity |].
  destruct (stack b) as [|top st]; [reflexivity |].
  destruct (L <=? level top); [| reflexivity].
  rewrite IH. apply forest_of_pop.
Qed.

(** The loop of [pop_ge] has fuel enough: it stops only at an empty stack or
    at an open entry whose level is below [L]. *)
Lemma pop_while_levels (fuel : nat) (L : Z) (b : Builder) :
  (List.length (stack b) <= fuel)%nat ->
  map level (stack (pop_while fuel L b))
  = drop_while (Z.leb L) (map level (stack b)).
Proof.
  revert b. induction fuel as [|fuel IH]; intros b Hlen; cbn.
  - destruct (stack b); [reflexivity | cbn in Hlen; lia].
  - destruct (stack b) as [|top st] eqn:Hst; [rewrite Hst; reflexivity |].
    cbn. destruct (L <=? level top) eqn:Hge.
    + rewrite IH by (rewrite pop_length, Hst; cbn in *; lia).
      rewrite pop_levels, Hst. reflexivity.
    + rewrite Hst. cbn. rewrite ?Hge. reflexivity.
Qed.

Lemma pop_ge_levels (L : Z) (b : Builder) :
  map level (stack (pop_ge L b)) = drop_while (Z.leb L) (map level (stack b)).
Proof. apply pop_while_levels. lia. Qed.

Lemma forest_of_pop_ge (L : Z) (b : Builder) :
  forest_of (pop_ge L b) = forest_of b.
Proof. apply forest_of_pop_while. Qed.

Lemma forest_of_closed (r : list ToCEntry) : forest_of (mkBuilder r []) = r.
Proof. reflexivity. Qed.

Lemma forest_of_push (r : list ToCEntry) (e p : ToCEntry)
    (below : list ToCEntry) :
  forest_of (mkBuilder r (e :: p :: below))
  = forest_of (mkBuilder r (add_child p e :: below)).
Proof. reflexivity. Qed.

(** C4.  The headings (1, A), (3, B), (1, C) give the forest
    [A{children: [B]}, C{children: []}].  In general the insertion of a
    heading of level [L] pops the open entries from the top of the stack
    for as long as their level is at least [L], which leaves the forest as
    it is; the new leaf is pushed; in the forest it stands as the last child
    of the entry then on top of the stack, or as the last root when the
    stack is empty. *)
Theorem insert_pops_then_appends (h : Heading) (b : Builder)
    (pA pB pC : Z) (vA vB vC : option float) :
  build [mkHeading 1 "A" pA vA; mkHeading 3 "B" pB vB; mkHeading 1 "C" pC vC]
  = [mkToCEntry "A" 1 pA vA [mkToCEntry "B" 3 pB vB []];
     mkToCEntry "C" 1 pC vC []] /\
  let b' := pop_ge (h_level h) b in
  map level (stack b')
    = drop_while (Z.leb (h_level h)) (map level (stack b)) /\
  forest_of b' = forest_of b /\
  stack (insert h b) = new_leaf h :: stack b' /\
  (stack b' = [] ->
     forest_of (insert h b) = (forest_of b ++ [new_leaf h])%list) /\
  (forall parent below, stack b' = parent :: below ->
     forest_of (insert h b)
     = forest_of (mkBuilder (roots b')
                    (add_child parent (new_leaf h) :: below))).
Proof.
  split; [reflexivity |]. cbn zeta.
  split; [apply pop_ge_levels |].
  split; [apply forest_of_pop_ge |].
  split; [reflexivity |].
  split.
  - intros Hst. rewrite <- (forest_of_pop_ge (h_level h) b).
    unfold insert. rewrite Hst.
    destruct (pop_ge (h_level h) b) as [r st]. cbn in Hst. subst st.
    reflexivity.
  - intros parent below Hst. unfold insert. rewrite Hst.
    apply forest_of_push.
Qed.

(** *** The stack is ordered by level *)

(** From the innermost open entry outwards the levels go strictly down. *)
Definition ordered (b : Builder) : Prop :=
  StronglySorted Z.gt (map level (stack b)).

Lemma drop_while_ordered (L : Z) (ls : list Z) :
  StronglySorted Z.gt ls ->
  StronglySorted Z.gt (drop_while (Z.leb L) ls) /\
  Forall (fun l => l < L) (drop_while (Z.leb L) ls).
Proof.
  induction 1 as [|a ls Hs IH Ha]; cbn; [split; constructor |].
  destruct (L <=? a) eqn:E; [exact IH |].
  apply Z.leb_gt in E. split; [constructor; assumption |].
  constructor; [exact E |].
  apply (Forall_impl _ (P := Z.gt a)); [intros x Hx; lia | exact Ha].
Qed.

(** The parent found by [insert] has a lower level than the new entry, and
    so has every entry that stays open. *)
Lemma pop_ge_below (L : Z) (b : Builder) :
  ordered b -> Forall (fun l => l < L) (map level (stack (pop_ge L b))).
Proof.
  intros Hb. rewrite pop_ge_levels. apply drop_while_ordered. exact Hb.
Qed.

Lemma insert_ordered (h : Heading) (b : Builder) :
  ordered b -> ordered (insert h b).
Proof.
  intros Hb. unfold ordered, insert. cbn [stack map].
  rewrite pop_ge_levels.
  destruct (drop_while_ordered (h_level h) _ Hb) as [Hs Hlt].
  constructor; [exact Hs |].
  apply (Forall_impl _ (P := fun l => l < h_level h));
    [cbn; intros x Hx; lia | exact Hlt].
Qed.

Lemma build_from_ordered (hs : list Heading) (b : Builder) :
  ordered b -> ordered (build_from b hs).
Proof.
  revert b. induction hs as [|h hs IH]; intros b Hb; [exact Hb |].
  apply (IH (insert h b)), insert_ordered, Hb.
Qed.

(** *** Filters come first *)

(** A recipe with a filter that cannot be constructed stops [gen_toc] with
    that error, whatever the document holds. *)
Lemma gen_toc_raises_before_walk (with_vpos : bool)
    (recipe : list FilterDict) (e : exn) (doc : list PageMeta) :
  make_filters recipe = Raise e -> gen_toc with_vpos recipe doc = Raise e.
Proof. intros H. unfold gen_toc. rewrite H. reflexivity. Qed.

Lemma make_filters_raises (recipe : list FilterDict) (d : FilterDict) :
  In d recipe -> (forall f, Filter.init d <> Ok f) ->
  exists e, make_filters recipe = Raise e.
Proof.
  induction recipe as [|d' recipe IH]; [contradiction |].
  intros [-> | Hin] Hbad; cbn.
  - destruct (Filter.init d) as [f|e]; [destruct (Hbad f eq_refl) |].
    exists e. reflexivity.
  - destruct (Filter.init d') as [f|e]; [| exists e; reflexivity]. cbn.
    destruct (IH Hin Hbad) as [e ->]. exists e. reflexivity.
Qed.

Definition heading_A : Heading := mkHeading 1 "A" 1 None.
Definition heading_B : Heading := mkHeading 3 "B" 2 None.
Definition heading_C : Heading := mkHeading 1 "C" 4 None.
Definition heading_D : Heading := mkHeading 2 "D" 3 None.

(** After A and B, a heading of level 1 closes both and becomes a root; a
    heading of level 2 closes B only and becomes a child of A. *)
Lemma insert_pops_then_appends_witness :
  forest_of (insert heading_C (build_from empty [heading_A; heading_B]))
  = [mkToCEntry "A" 1 1 None [mkToCEntry "B" 3 2 None []];
     mkToCEntry "C" 1 4 None []] /\
  forest_of (insert heading_D (build_from empty [heading_A; heading_B]))
  = [mkToCEntry "A" 1 1 None [mkToCEntry "B" 3 2 None [];
                              mkToCEntry "D" 2 3 None []]].
Proof.
  pose (b := build_from empty [heading_A; heading_B]).
  split.
  - apply (proj1 (proj2 (proj2 (proj2 (proj2
             (insert_pops_then_appends heading_C b 1 2 4 None None None)))))).
    reflexivity.
  - apply (proj2 (proj2 (proj2 (proj2 (proj2
             (insert_pops_then_appends heading_D b 1 2 4 None None None)))))
             (mkToCEntry "A" 1 1 None [mkToCEntry "B" 3 2 None []]) []).
    reflexivity.
Defined.

(** *** Document order *)

Lemma heading_of_new_leaf (h : Heading) : heading_of (new_leaf h) = h.
Proof. destruct h; reflexivity. Qed.

Lemma preorder_entry_eq (e : ToCEntry) :
  preorder_entry e = heading_of e :: preorder (children e).
Proof.
  destruct e as [t l p v cs]. reflexivity.
Qed.

Lemma preorder_app (f g : list ToCEntry) :
  preorder (f ++ g) = (preorder f ++ preorder g)%list.
Proof. apply flat_map_app. Qed.

Lemma preorder_nil : preorder [] = [].
Proof. reflexivity. Qed.

Lemma preorder_single (e : ToCEntry) : preorder [e] = preorder_entry e.
Proof. unfold preorder. cbn. apply app_nil_r. Qed.

#[local] Arguments preorder : simpl never.

Lemma preorder_add_child (p e : ToCEntry) :
  preorder_entry (add_child p e)
  = (preorder_entry p ++ preorder_entry e)%list.
Proof.
  rewrite (preorder_entry_eq (add_child p e)), (preorder_entry_eq p).
  cbn [add_child children]. rewrite preorder_app, preorder_single.
  reflexivity.
Qed.

(** The headings of a builder state in document order: the closed roots,
    then the open entries from the outermost to the innermost. *)
Definition in_order (b : Builder) : list Heading :=
  (preorder (roots b) ++ preorder (rev (stack b)))%list.

Lemma in_order_pop (b : Builder) : in_order (pop b) = in_order b.
Proof.
  destruct b as [r [|e [|p below]]]; unfold in_order, pop;
    cbn [stack roots rev app].
  - reflexivity.
  - rewrite preorder_app, preorder_nil, app_nil_r. reflexivity.
  - rewrite !preorder_app, !preorder_single, preorder_add_child.
    rewrite <- !app_assoc. reflexivity.
Qed.

Lemma in_order_pop_while (fuel : nat) (L : Z) (b : Builder) :
  in_order (pop_while fuel L b) = in_order b.
Proof.
  revert b. induction fuel as [|fuel IH]; intros b; cbn; [reflexivity |].
  destruct (stack b) as [|top st]; [reflexivity |].
  destruct (L <=? level top); [| reflexivity].
  rewrite IH. apply in_order_pop.
Qed.

Lemma in_order_insert (h : Heading) (b : Builder) :
  in_order (insert h b) = (in_order b ++ [h])%list.
Proof.
  unfold insert, pop_ge.
  rewrite <- (in_order_pop_while (List.length (stack b)) (h_level h) b).
  unfold in_order. cbn [stack roots rev].
  rewrite preorder_app, preorder_single, preorder_entry_eq.
  rewrite heading_of_new_leaf. cbn [new_leaf children].
  rewrite preorder_nil, app_assoc. reflexivity.
Qed.

Lemma close_stack (fuel : nat) (b : Builder) :
  (List.length (stack b) <= fuel)%nat -> stack (close fuel b) = [].
Proof.
  revert b. induction fuel as [|fuel IH]; intros b Hlen; cbn.
  - destruct (stack b); [reflexivity | cbn in Hlen; lia].
  - apply IH. rewrite pop_length. lia.
Qed.

Lemma in_order_close (fuel : nat) (b : Builder) :
  in_order (close fuel b) = in_order b.
Proof.
  revert b. induction fuel as [|fuel IH]; intros b; cbn; [reflexivity |].
  rewrite IH. apply in_order_pop.
Qed.

Lemma preorder_forest_of (b : Builder) : preorder (forest_of b) = in_order b.
Proof.
  unfold forest_of.
  rewrite <- (in_order_close (List.length (stack b)) b).
  unfold in_order. rewrite close_stack by lia. cbn [rev].
  rewrite preorder_nil, app_nil_r. reflexivity.
Qed.

Lemma in_order_build_from (hs : list Heading) (b : Builder) :
  in_order (build_from b hs) = (in_order b ++ hs)%list.
Proof.
  revert b. induction hs as [|h hs IH]; intros b.
  - cbn. rewrite app_nil_r. reflexivity.
  - change (build_from b (h :: hs)) with (build_from (insert h b) hs).
    rewrite IH, in_order_insert, <- app_assoc. reflexivity.
Qed.

(** The forest lists the matched headings in the order they came in. *)
Lemma preorder_build (hs : list Heading) : preorder (build hs) = hs.
Proof.
  unfold build. rewrite preorder_forest_of, in_order_build_from. reflexivity.
Qed.

(** *** Greedy titles *)

(** A span of a block: one of the spans of one of its lines. *)
Definition span_in_block (s : Span) (blk : Block) : Prop :=
  exists ln, In ln (get_default (blk_lines blk) []) /\
             In s (get_default (ln_spans ln) []).

(** The headings of a block are those of its matched spans, each made with
    the block itself. *)
Lemma block_headings_spec (with_vpos : bool) (filters : list ToCFilter)
    (pageno : Z) (blk : Block) (h : Heading) :
  In h (block_headings with_vpos filters pageno blk) <->
  exists s f, span_in_block s blk /\ winning_filter filters s = Some f /\
              h = new_heading with_vpos f pageno blk s.
Proof.
  unfold block_headings, span_in_block. rewrite in_flat_map. split.
  - intros (ln & Hln & Hin). apply in_flat_map in Hin.
    destruct Hin as (s & Hs & Hin).
    destruct (winning_filter filters s) as [f|] eqn:Hwin; [| contradiction].
    destruct Hin as [<- | []]. exists s, f. eauto.
  - intros (s & f & (ln & Hln & Hs) & Hwin & ->).
    exists ln. split; [exact Hln |]. apply in_flat_map.
    exists s. split; [exact Hs |]. rewrite Hwin. left. reflexivity.
Qed.

Lemma doc_headings_page (with_vpos : bool) (filters : list ToCFilter)
    (doc : list PageMeta) (first : Z) (i : nat) (pg : PageMeta)
    (h : Heading) :
  nth_error doc i = Some pg ->
  In h (page_headings with_vpos filters (first + Z.of_nat i) pg) ->
  In h (doc_headings with_vpos filters first doc).
Proof.
  revert first i. induction doc as [|pg' doc IH]; intros first i Hpg Hin.
  - destruct i; discriminate.
  - cbn [doc_headings]. apply in_or_app. destruct i as [|i].
    + left. injection Hpg as ->. rewrite Z.add_0_r in Hin. exact Hin.
    + right. apply (IH (first + 1) i Hpg).
      replace (first + 1 + Z.of_nat i) with (first + Z.of_nat (S i)) by lia.
      exact Hin.
Qed.

Lemma title_of_new_heading (with_vpos : bool) (f : ToCFilter) (pageno : Z)
    (blk : Block) (s : Span) :
  h_title (new_heading with_vpos f pageno blk s)
  = if greedy f
    then join " " (map strip (PdfxmetaFacts.block_texts blk))
    else get_default (sp_text s) EmptyString.
Proof.
  cbn. unfold heading_title. destruct (greedy f); [| reflexivity].
  apply PdfxmetaFacts.blk_to_str_join.
Qed.

(** C5.  For a span of a block whose winning filter is greedy, the builder
    gives a heading whose title is the texts of all the spans of that
    block, in block order, each stripped, joined by single spaces; the
    heading is among the headings of the block and, for a block of page
    [i + 1] of a document, in the forest that the builder returns.  Every
    heading of the block comes from one of its matched spans, with this
    title if the span's winning filter is greedy and with the span's own
    text if it is not. *)
Theorem greedy_title_is_block_text (with_vpos : bool)
    (filters : list ToCFilter) (doc : list PageMeta) (i : nat)
    (pg : PageMeta) (blk : Block) (s : Span) (f : ToCFilter) :
  nth_error doc i = Some pg ->
  In blk (get_default (pg_blocks pg) []) ->
  span_in_block s blk ->
  winning_filter filters s = Some f -> greedy f = true ->
  let block_text := join " " (map strip (PdfxmetaFacts.block_texts blk)) in
  let heading := mkHeading (Filter.level f) block_text (Z.of_nat i + 1)
                           (if with_vpos then bbox_top s else None) in
  In heading (block_headings with_vpos filters (Z.of_nat i + 1) blk) /\
  In heading (preorder (hierarchy_builder with_vpos filters doc)) /\
  (forall h, In h (block_headings with_vpos filters (Z.of_nat i + 1) blk) ->
     exists s' f', span_in_block s' blk /\
       winning_filter filters s' = Some f' /\
       h_title h = if greedy f' then block_text
                   else get_default (sp_text s') EmptyString).
Proof.
  intros Hpg Hblk Hs Hwin Hg block_text heading.
  assert (heading = new_heading with_vpos f (Z.of_nat i + 1) blk s) as Hh.
  { pose proof (title_of_new_heading with_vpos f (Z.of_nat i + 1) blk s)
      as Ht.
    rewrite Hg in Ht. unfold heading, block_text. rewrite <- Ht.
    reflexivity. }
  assert (In heading (block_headings with_vpos filters (Z.of_nat i + 1) blk))
    as Hin by (apply block_headings_spec; exists s, f; auto).
  split; [exact Hin | split].
  - unfold hierarchy_builder. rewrite preorder_build.
    apply (doc_headings_page with_vpos filters doc 1 i pg); [exact Hpg |].
    rewrite Z.add_comm. unfold page_headings. apply in_flat_map.
    exists blk. split; [exact Hblk | exact Hin].
  - intros h Hh'. apply block_headings_spec in Hh'.
    destruct Hh' as (s' & f' & Hs' & Hwin' & ->).
    exists s', f'. split; [exact Hs' | split; [exact Hwin' |]].
    apply title_of_new_heading.
Qed.

(** A block of three spans of which only the first is set in 14 points. *)
Definition span_of (text : string) (size : float) : Span :=
  mkSpan (Some text) (Some "Times-Bold") (Some size) (Some 20) (Some 0)
         (Some (72%float, 90.5%float, 200%float, 110%float)).

Definition three_span_block : Block :=
  mkBlock (Some [mkLine (Some [span_of "Chapter 1 " 14%float;
                               span_of " Introduction" 12%float]);
                 mkLine (Some [span_of "  to the notation " 12%float])]).

Definition greedy_14pt : ToCFilter :=
  mkToCFilter 1 true None (Some 14%float).

Lemma greedy_title_is_block_text_witness :
  In (mkHeading 1 "Chapter 1 Introduction to the notation" 1 None)
     (preorder (hierarchy_builder false [greedy_14pt]
                  [mkPageMeta (Some [three_span_block])])).
Proof.
  apply (greedy_title_is_block_text false [greedy_14pt]
           [mkPageMeta (Some [three_span_block])] 0
           (mkPageMeta (Some [three_span_block])) three_span_block
           (span_of "Chapter 1 " 14%float) greedy_14pt).
  - reflexivity.
  - cbn. left. reflexivity.
  - unfold span_in_block. cbn. eexists.
    split; [left; reflexivity | cbn; left; reflexivity].
  - reflexivity.
  - reflexivity.
Defined.

(** The whole block gives one heading, that of its only matching span; a
    filter that is not greedy keeps the span's own text. *)
Example greedy_block_headings :
  block_headings false [greedy_14pt] 3 three_span_block
  = [mkHeading 1 "Chapter 1 Introduction to the notation" 3 None].
Proof. reflexivity. Qed.

Example plain_block_headings :
  block_headings true [mkToCFilter 1 false None (Some 14%float)] 3
                 three_span_block
  = [mkHeading 1 "Chapter 1 " 3 (Some 90.5%float)].
Proof. reflexivity. Qed.

End BuilderFacts.

(* ================================================================== *)
(** * Facts about texts *)
(* ================================================================== *)

Module StrFacts.

Import ToC.

Lemma append_nil_r (s : string) : s ++ EmptyString = s.
Proof. induction s as [|c s IH]; cbn; [| rewrite IH]; reflexivity. Qed.

Lemma append_assoc (a b c : string) : (a ++ b) ++ c = a ++ b ++ c.
Proof. induction a as [|x a IH]; cbn; [| rewrite IH]; reflexivity. Qed.

Lemma contains_char_app (c : ascii) (a b : string) :
  contains_char c (a ++ b) = contains_char c a || contains_char c b.
Proof.
  induction a as [|x a IH]; cbn; [reflexivity |].
  rewrite IH, orb_assoc. reflexivity.
Qed.

(** *** Stripping *)

Lemma length_lstrip (s : string) :
  (String.length (lstrip s) <= String.length s)%nat.
Proof.
  induction s as [|c s IH]; cbn; [lia |].
  destruct (isspace c); cbn; lia.
Qed.

Lemma length_rstrip (s : string) :
  (String.length (rstrip s) <= String.length s)%nat.
Proof.
  induction s as [|c s IH]; cbn; [lia |].
  destruct (rstrip s); [destruct (isspace c) |]; cbn in *; lia.
Qed.

(** A text that [strip] leaves as it is does not start with a blank. *)
Lemma strip_fixed_head (c : ascii) (s : string) :
  strip (String c s) = String c s -> isspace c = false.
Proof.
  intros H. destruct (isspace c) eqn:E; [| reflexivity].
  apply (f_equal String.length) in H. unfold strip in H. cbn in H.
  rewrite E in H.
  pose proof (length_rstrip (lstrip s)). pose proof (length_lstrip s). lia.
Qed.

(** A text with a character that is not a blank does not strip to nothing. *)
Lemma strip_truthy (c : ascii) (s : string) :
  contains_char c s = true -> isspace c = false -> truthy (strip s) = true.
Proof.
  intros Hc Hsp. unfold strip. induction s as [|a s IH]; [discriminate |].
  cbn in Hc. cbn [lstrip]. destruct (isspace a) eqn:Ea.
  - apply IH. destruct (Ascii.eqb_spec a c) as [->|_]; [congruence |].
    exact Hc.
  - cbn. destruct (rstrip s); [rewrite Ea |]; reflexivity.
Qed.

(** *** Lines *)

Lemma split_char_line (c : ascii) (l rest : string) :
  contains_char c l = false ->
  split_char c (l ++ String c rest) = l :: split_char c rest.
Proof.
  induction l as [|a l IH]; cbn.
  - intros _. rewrite Ascii.eqb_refl. reflexivity.
  - intros H. apply orb_false_iff in H. destruct H as [Hac Hl].
    rewrite Hac, (IH Hl). reflexivity.
Qed.

(** *** The last separator *)

Lemma rpartition_absent (sep s : string) :
  contains sep s = false -> rpartition sep s = None.
Proof.
  induction s as [|c s IH]; [reflexivity |].
  cbn [contains rpartition]. intros H.
  apply orb_false_iff in H. destruct H as [Hp Hs].
  rewrite (IH Hs), Hp. reflexivity.
Qed.

Lemma rpartition_app (sep t u a b : string) :
  rpartition sep u = Some (a, b) ->
  rpartition sep (t ++ u) = Some (t ++ a, b).
Proof.
  intros H. induction t as [|c t IH]; cbn; [exact H |].
  rewrite IH. reflexivity.
Qed.

Lemma prefix_cons (a b : ascii) (s1 s2 : string) :
  String.prefix (String a s1) (String b s2)
  = if ascii_dec a b then String.prefix s1 s2 else false.
Proof. reflexivity. Qed.

Lemma prefix_bar_absent (s x : string) :
  contains_char "|" x = false -> String.prefix (String "|" s) x = false.
Proof.
  destruct x as [|c x]; [reflexivity |].
  cbn [contains_char]. intros H.
  apply orb_false_iff in H. destruct H as [Hc _].
  rewrite prefix_cons.
  destruct (ascii_dec "|" c) as [<-|]; [discriminate | reflexivity].
Qed.

Lemma contains_separator_absent (x : string) :
  contains_char "|" x = false -> contains separator x = false.
Proof.
  induction x as [|c x IH]; [reflexivity |].
  intros H. pose proof H as H'. cbn in H'.
  apply orb_false_iff in H'. destruct H' as [_ Hx].
  cbn [contains]. rewrite (IH Hx), orb_false_r.
  unfold separator. rewrite prefix_cons.
  destruct (ascii_dec " " c); [| reflexivity].
  apply prefix_bar_absent. exact Hx.
Qed.

Lemma prefix_nil (x : string) : String.prefix EmptyString x = true.
Proof. destruct x; reflexivity. Qed.

Lemma prefix_head_eq (a : ascii) (s1 s2 : string) :
  String.prefix (String a s1) (String a s2) = String.prefix s1 s2.
Proof.
  rewrite prefix_cons. destruct (ascii_dec a a); [reflexivity | congruence].
Qed.

Lemma prefix_head_ne (a b : ascii) (s1 s2 : string) :
  a <> b -> String.prefix (String a s1) (String b s2) = false.
Proof.
  intros H. rewrite prefix_cons.
  destruct (ascii_dec a b); [congruence | reflexivity].
Qed.

Lemma rpartition_separator_head (x : string) :
  contains_char "|" x = false ->
  rpartition separator (separator ++ x) = Some (EmptyString, x).
Proof.
  intros Hx.
  pose proof (rpartition_absent _ x (contains_separator_absent x Hx)) as E.
  unfold separator in *. cbn [append rpartition]. rewrite E.
  rewrite (prefix_head_eq " " "| " x), (prefix_bar_absent " " x Hx).
  rewrite (prefix_head_ne " " "|") by discriminate.
  rewrite !prefix_head_eq, prefix_nil. reflexivity.
Qed.

(** In [t | x] the last separator is the one before [x], whatever [t] is,
    as long as [x] has no bar. *)
Lemma rpartition_last (t x : string) :
  contains_char "|" x = false ->
  rpartition separator (t ++ separator ++ x) = Some (t, x).
Proof.
  intros Hx. rewrite <- (append_nil_r t) at 2.
  apply rpartition_app, rpartition_separator_head. exact Hx.
Qed.

(** *** Indentation *)

Lemma leading_spaces_indent (n : nat) (rest : string) :
  leading_spaces (repeat_str "  " n ++ rest)
  = (2 * n + leading_spaces rest)%nat.
Proof.
  induction n as [|n IH]; [reflexivity |].
  cbn [repeat_str append leading_spaces]. rewrite !Ascii.eqb_refl, IH. lia.
Qed.

Lemma drop_indent (n : nat) (rest : string) :
  drop (2 * n) (repeat_str "  " n ++ rest) = rest.
Proof.
  induction n as [|n IH]; [reflexivity |].
  replace (2 * S n)%nat with (S (S (2 * n))) by lia.
  cbn [repeat_str append drop]. exact IH.
Qed.

Lemma contains_char_indent (c : ascii) (n : nat) :
  Ascii.eqb " " c = false -> contains_char c (repeat_str "  " n) = false.
Proof.
  intros H. induction n as [|n IH]; [reflexivity |].
  cbn [repeat_str append contains_char]. rewrite H, IH. reflexivity.
Qed.

(** *** Page numbers *)

Definition is_digit (c : ascii) : bool :=
  ((48 <=? nat_of_ascii c) && (nat_of_ascii c <=? 57))%nat.

Lemma digit_eqb (d c : ascii) :
  is_digit d = true -> is_digit c = false -> Ascii.eqb d c = false.
Proof.
  intros Hd Hc. destruct (Ascii.eqb_spec d c) as [->|]; congruence.
Qed.

Lemma contains_char_uint (c : ascii) (d : Decimal.uint) :
  is_digit c = false ->
  contains_char c (DecimalString.NilEmpty.string_of_uint d) = false.
Proof.
  intros Hc. induction d as [|d IH|d IH|d IH|d IH|d IH|d IH|d IH|d IH|d IH|d IH];
    cbn [DecimalString.NilEmpty.string_of_uint contains_char];
    [reflexivity
    | rewrite IH, digit_eqb by first [exact Hc | reflexivity];
      reflexivity ..].
Qed.

Lemma str_of_int_pos (p : positive) :
  str_of_int (Zpos p)
  = DecimalString.NilEmpty.string_of_uint (Pos.to_uint p).
Proof.
  unfold str_of_int. cbn.
  pose proof (DecimalPos.Unsigned.to_uint_nonnil p) as Hnil.
  destruct (Pos.to_uint p); [congruence | reflexivity ..].
Qed.

Lemma contains_char_page (c : ascii) (n : Z) :
  1 <= n -> is_digit c = false -> contains_char c (str_of_int n) = false.
Proof.
  intros Hn Hc. destruct n as [|p|p]; try lia.
  rewrite str_of_int_pos. apply contains_char_uint. exact Hc.
Qed.

Lemma parse_page_str_of_int (n : Z) :
  1 <= n -> parse_page (str_of_int n) = Some n.
Proof.
  intros Hn. destruct n as [|p|p]; try lia.
  unfold parse_page, str_of_int. cbn [Z.to_int DecimalString.NilZero.string_of_int].
  rewrite DecimalString.NilZero.usu
    by apply DecimalPos.Unsigned.to_uint_nonnil.
  unfold Z.of_uint. rewrite DecimalPos.Unsigned.of_to.
  change (Z.of_N (N.pos p)) with (Z.pos p).
  apply Z.leb_le in Hn. rewrite Hn. reflexivity.
Qed.

End StrFacts.

(* ================================================================== *)
(** * Properties of the notation *)
(* ================================================================== *)

Module CodecFacts.

Import Filter ToC StrFacts BuilderFacts.

Definition nl : ascii := ascii_of_nat 10.

Section Codec.
Context {codec : VposCodec}.

(** A title that the notation carries unchanged: it has no blank at either
    end, no line break and no separator inside. *)
Definition title_safe (h : Heading) : Prop :=
  strip (h_title h) = h_title h /\
  contains_char nl (h_title h) = false /\
  contains separator (h_title h) = false.

(** A vertical position that the notation carries unchanged: its rendering
    reads back as the same float and has neither a bar nor a line break. *)
Definition vpos_safe (h : Heading) : Prop :=
  forall v, h_vpos h = Some v ->
    parse_vpos (format_vpos v) = Some v /\
    contains_char "|" (format_vpos v) = false /\
    contains_char nl (format_vpos v) = false.

(** What the builder guarantees by itself: levels and pages from 1, and no
    vertical position unless it was asked for. *)
Definition well_formed (with_vpos : bool) (h : Heading) : Prop :=
  1 <= h_level h /\ 1 <= h_page h /\
  (with_vpos = false -> h_vpos h = None).

Definition vpos_field (with_vpos : bool) (h : Heading) : string :=
  if with_vpos
  then match h_vpos h with
       | Some v => separator ++ format_vpos v
       | None => EmptyString
       end
  else EmptyString.

Lemma dump_line_eq (with_vpos : bool) (h : Heading) :
  dump_line with_vpos h
  = repeat_str "  " (Z.to_nat (h_level h - 1)) ++ h_title h
    ++ separator ++ str_of_int (h_page h) ++ vpos_field with_vpos h.
Proof. reflexivity. Qed.

Lemma vpos_field_one_line (with_vpos : bool) (h : Heading) :
  vpos_safe h -> contains_char nl (vpos_field with_vpos h) = false.
Proof.
  intros Hv. unfold vpos_field.
  destruct with_vpos; [| reflexivity].
  destruct (h_vpos h) as [v|] eqn:E; [| reflexivity].
  destruct (Hv v E) as (_ & _ & Hnl).
  rewrite contains_char_app, Hnl. reflexivity.
Qed.

Lemma dump_line_one_line (with_vpos : bool) (h : Heading) :
  well_formed with_vpos h -> title_safe h -> vpos_safe h ->
  contains_char nl (dump_line with_vpos h) = false.
Proof.
  intros (_ & Hp & _) (_ & Hnl & _) Hv.
  rewrite dump_line_eq, !contains_char_app.
  rewrite contains_char_indent by reflexivity.
  rewrite Hnl, (contains_char_page nl _ Hp) by reflexivity.
  rewrite vpos_field_one_line by exact Hv. reflexivity.
Qed.

Lemma dump_line_not_blank (with_vpos : bool) (h : Heading) :
  blank (dump_line with_vpos h) = false.
Proof.
  unfold blank. rewrite (strip_truthy "|"); [reflexivity | | reflexivity].
  rewrite dump_line_eq, !contains_char_app.
  change (contains_char "|" separator) with true.
  rewrite orb_true_l, !orb_true_r. reflexivity.
Qed.

(** The text after the indentation starts with at most one space. *)
Lemma leading_spaces_title (t x : string) :
  strip t = t -> (leading_spaces (t ++ separator ++ x) <= 1)%nat.
Proof.
  intros Ht. destruct t as [|c t]; [cbn; lia |].
  apply strip_fixed_head in Ht. cbn [append leading_spaces].
  destruct (Ascii.eqb_spec c " ") as [->|_]; [discriminate | lia].
Qed.

Lemma indent_pairs (n k : nat) : (k <= 1)%nat -> Nat.div (2 * n + k) 2 = n.
Proof.
  intros Hk. symmetry. apply (Nat.div_unique _ 2 n k); lia.
Qed.

(** A line of the dump reads back as the heading it was written from. *)
Lemma parse_dump_line (with_vpos : bool) (h : Heading) :
  well_formed with_vpos h -> title_safe h -> vpos_safe h ->
  parse_line (dump_line with_vpos h) = Some h.
Proof.
  intros (Hl & Hp & Hw) (Hs & _ & Hsep) Hv.
  rewrite dump_line_eq. unfold parse_line.
  rewrite leading_spaces_indent.
  rewrite indent_pairs by (apply leading_spaces_title; exact Hs).
  rewrite drop_indent.
  replace (Z.of_nat (Z.to_nat (h_level h - 1)) + 1) with (h_level h)
    by (rewrite Z2Nat.id; lia).
  assert (Hbar : contains_char "|" (str_of_int (h_page h)) = false)
    by (apply contains_char_page; [exact Hp | reflexivity]).
  assert (Hplain : vpos_field with_vpos h = EmptyString -> h_vpos h = None ->
    match rpartition separator
            (h_title h ++ separator ++ str_of_int (h_page h)
             ++ vpos_field with_vpos h)
    with
    | Some (left1, right1) =>
        match rpartition separator left1 with
        | Some (left2, right2) =>
            match parse_page right2, parse_vpos right1 with
            | Some p, Some v =>
                Some (mkHeading (h_level h) (strip left2) p (Some v))
            | _, _ => None
            end
        | None =>
            match parse_page right1 with
            | Some p => Some (mkHeading (h_level h) (strip left1) p None)
            | None => None
            end
        end
    | None => None
    end = Some h).
  { intros -> Hnone. rewrite append_nil_r, (rpartition_last _ _ Hbar).
    rewrite (rpartition_absent _ _ Hsep), (parse_page_str_of_int _ Hp), Hs.
    destruct h; cbn in *; subst; reflexivity. }
  unfold vpos_field in *. destruct with_vpos.
  - destruct (h_vpos h) as [v|] eqn:E; [| apply Hplain; reflexivity].
    destruct (Hv v E) as (Hrt & Hvbar & _).
    rewrite <- (append_assoc separator), <- (append_assoc (h_title h)).
    rewrite (rpartition_last _ _ Hvbar), (rpartition_last _ _ Hbar).
    rewrite (parse_page_str_of_int _ Hp), Hrt, Hs.
    destruct h; cbn in *; subst; reflexivity.
  - apply Hplain; [reflexivity | apply Hw; reflexivity].
Qed.

(** *** The dump, line by line *)

Definition dump_headings (with_vpos : bool) (hs : list Heading) : string :=
  fold_right (fun h rest => dump_line with_vpos h ++ newline ++ rest)
             EmptyString hs.

Lemma dump_build (with_vpos : bool) (hs : list Heading) :
  dump with_vpos (build hs) = dump_headings with_vpos hs.
Proof. unfold dump. rewrite preorder_build. reflexivity. Qed.

Definition safe (with_vpos : bool) (h : Heading) : Prop :=
  well_formed with_vpos h /\ title_safe h /\ vpos_safe h.

Lemma split_dump_headings (with_vpos : bool) (hs : list Heading) :
  Forall (safe with_vpos) hs ->
  split_char nl (dump_headings with_vpos hs)
  = (map (dump_line with_vpos) hs ++ [EmptyString])%list.
Proof.
  induction 1 as [|h hs (Hw & Ht & Hv) _ IH]; [reflexivity |].
  cbn [dump_headings fold_right map app].
  change (newline ++ ?rest) with (String nl rest).
  rewrite split_char_line by (apply dump_line_one_line; assumption).
  f_equal. exact IH.
Qed.

Lemma parse_lines_dump (with_vpos : bool) (hs : list Heading) :
  Forall (safe with_vpos) hs ->
  forall lineno b,
    parse_lines lineno (map (dump_line with_vpos) hs ++ [EmptyString])%list b
    = Ok (build_from b hs).
Proof.
  induction 1 as [|h hs (Hw & Ht & Hv) _ IH]; intros lineno b.
  - reflexivity.
  - cbn [map app parse_lines].
    rewrite dump_line_not_blank, parse_dump_line by assumption.
    apply IH.
Qed.

(** The round trip for a forest built from headings that the notation can
    carry. *)
Lemma parse_dump_build (with_vpos : bool) (hs : list Heading) :
  Forall (safe with_vpos) hs ->
  parse (dump with_vpos (build hs)) = Ok (build hs).
Proof.
  intros Hs. unfold parse. rewrite dump_build.
  change (ascii_of_nat 10) with nl.
  rewrite split_dump_headings, parse_lines_dump by exact Hs.
  reflexivity.
Qed.

End Codec.

(** *** What the builder guarantees *)

Lemma make_filters_levels (recipe : list FilterDict)
    (filters : list ToCFilter) :
  make_filters recipe = Ok filters ->
  Forall (fun f => 1 <= Filter.level f) filters.
Proof.
  revert filters. induction recipe as [|d recipe IH]; cbn; intros filters.
  - intros [= <-]. constructor.
  - destruct (Filter.init d) as [f|e] eqn:Hf; [| discriminate]. cbn.
    destruct (make_filters recipe) as [fs|e]; [| discriminate]. cbn.
    intros [= <-]. constructor.
    + apply (FilterFacts.init_level_ge_1 d). exact Hf.
    + apply IH. reflexivity.
Qed.

Lemma block_headings_well_formed (with_vpos : bool)
    (filters : list ToCFilter) (pageno : Z) (blk : Block) :
  Forall (fun f => 1 <= Filter.level f) filters -> 1 <= pageno ->
  Forall (well_formed with_vpos)
         (block_headings with_vpos filters pageno blk).
Proof.
  intros Hf Hp. apply Forall_forall. intros h Hin.
  unfold block_headings in Hin.
  apply in_flat_map in Hin. destruct Hin as (ln & _ & Hin).
  apply in_flat_map in Hin. destruct Hin as (s & _ & Hin).
  destruct (winning_filter filters s) as [f|] eqn:Hwin; [| contradiction].
  destruct Hin as [<- | []].
  apply find_some in Hwin. destruct Hwin as [Hfin _].
  rewrite Forall_forall in Hf. repeat split; cbn.
  - apply Hf. exact Hfin.
  - exact Hp.
  - intros ->. reflexivity.
Qed.

Lemma doc_headings_well_formed (with_vpos : bool)
    (filters : list ToCFilter) (doc : list PageMeta) (first : Z) :
  Forall (fun f => 1 <= Filter.level f) filters -> 1 <= first ->
  Forall (well_formed with_vpos) (doc_headings with_vpos filters first doc).
Proof.
  intros Hf. revert first.
  induction doc as [|pg doc IH]; intros first Hp; cbn; [constructor |].
  apply Forall_app. split; [| apply IH; lia].
  unfold page_headings. apply Forall_flat_map, Forall_forall.
  intros blk _. apply block_headings_well_formed; assumption.
Qed.

(** *** The round trip *)

(** C3, as the notation allows it.  For a forest that the hierarchy builder
    gives from a recipe whose filters were all constructed, parsing the
    dump gives the forest back, provided that every title is free of
    blanks at its ends, of line breaks and of the separator, and that every
    vertical position present reads back from its rendering. *)
Theorem roundtrip_of_safe_headings {codec : VposCodec} (with_vpos : bool)
    (recipe : list FilterDict) (filters : list ToCFilter)
    (doc : list PageMeta) :
  make_filters recipe = Ok filters ->
  Forall title_safe (preorder (hierarchy_builder with_vpos filters doc)) ->
  Forall vpos_safe (preorder (hierarchy_builder with_vpos filters doc)) ->
  parse (dump with_vpos (hierarchy_builder with_vpos filters doc))
  = Ok (hierarchy_builder with_vpos filters doc).
Proof.
  unfold hierarchy_builder. rewrite preorder_build.
  intros Hrecipe Htitles Hvpos. apply parse_dump_build.
  pose proof (doc_headings_well_formed with_vpos filters doc 1
                (make_filters_levels _ _ Hrecipe) ltac:(lia)) as Hwf.
  rewrite Forall_forall in *. intros h Hin.
  split; [exact (Hwf h Hin) | split; [exact (Htitles h Hin) |]].
  exact (Hvpos h Hin).
Qed.

(** A recipe with a greedy rule for 14 point text and a plain rule for 12
    point text, and a document of two pages. *)
Definition sample_recipe : list FilterDict :=
  [mkFilterDict (Some 1) (Some true)
     (Some (mkFontDict None (Some 14%float)));
   mkFilterDict (Some 2) None
     (Some (mkFontDict (Some "Times-Bold") (Some 12%float)))].

Definition span_at (text font : string) (size top : float) : Span :=
  mkSpan (Some text) (Some font) (Some size) (Some 20) (Some 0)
         (Some (72%float, top, 200%float, PrimFloat.add top size)).

Definition block_of (spans : list Span) : Block :=
  mkBlock (Some [mkLine (Some spans)]).

Definition sample_doc : list PageMeta :=
  [mkPageMeta (Some
     [block_of [span_at "1 " "Times-Bold" 14%float 90.5%float;
                span_at " Introduction" "Times-Roman" 10%float 90.5%float];
      block_of [span_at "body text" "Times-Roman" 10%float 120%float];
      block_of [span_at "Scope" "Times-Bold" 12%float 700.125%float]]);
   mkPageMeta (Some
     [block_of [span_at "2 " "Times-Bold" 14%float 90.5%float;
                span_at "Notation" "Times-Roman" 10%float 90.5%float]])].

Lemma roundtrip_of_safe_headings_witness :
  exists filters, make_filters sample_recipe = Ok filters /\
    hierarchy_builder true filters sample_doc
    = [mkToCEntry "1 Introduction" 1 1 (Some 90.5%float)
         [mkToCEntry "Scope" 2 1 (Some 700.125%float) []];
       mkToCEntry "2 Notation" 1 2 (Some 90.5%float) []] /\
    @parse (fixed_codec 3)
      (@dump (fixed_codec 3) true (hierarchy_builder true filters sample_doc))
    = Ok (hierarchy_builder true filters sample_doc).
Proof.
  eexists. split; [reflexivity |]. split; [reflexivity |].
  apply (@roundtrip_of_safe_headings (fixed_codec 3) true sample_recipe).
  - reflexivity.
  - apply Forall_forall. intros h Hin. vm_compute in Hin.
    destruct Hin as [<- | [<- | [<- | []]]]; repeat split; reflexivity.
  - apply Forall_forall. intros h Hin. vm_compute in Hin.
    destruct Hin as [<- | [<- | [<- | []]]]; intros v [= <-];
      repeat split; reflexivity.
Defined.

(** A span whose text starts with two spaces, matched by a plain rule. *)
Definition indented_recipe : list FilterDict :=
  [mkFilterDict (Some 1) None (Some (mkFontDict None (Some 14%float)))].

Definition indented_doc : list PageMeta :=
  [mkPageMeta (Some
     [block_of [span_at "  Intro" "Times-Bold" 14%float 90.5%float]])].

(** The round trip fails on a forest of the builder: the title [  Intro]
    of level 1 comes back as [Intro] of level 2. *)
Lemma roundtrip_counterexample :
  exists filters, make_filters indented_recipe = Ok filters /\
    hierarchy_builder false filters indented_doc
    = [mkToCEntry "  Intro" 1 1 None []] /\
    @parse (fixed_codec 3)
      (@dump (fixed_codec 3) false
         (hierarchy_builder false filters indented_doc))
    = Ok [mkToCEntry "Intro" 2 1 None []] /\
    @parse (fixed_codec 3)
      (@dump (fixed_codec 3) false
         (hierarchy_builder false filters indented_doc))
    <> Ok (hierarchy_builder false filters indented_doc).
Proof.
  eexists. split; [reflexivity |]. split; [reflexivity |].
  split; [reflexivity | discriminate].
Qed.

(** Two more ways to lose the forest: a separator inside a title is read as
    the page field, and a position with more decimals than the codec
    writes comes back rounded. *)
Example roundtrip_separator_in_title :
  @parse (fixed_codec 3)
    (@dump (fixed_codec 3) false (build [mkHeading 1 "A | 3" 1 None]))
  = Ok [mkToCEntry "A" 1 3 (Some 1%float) []].
Proof. reflexivity. Qed.

Example roundtrip_rounded_vpos :
  @parse (fixed_codec 3)
    (@dump (fixed_codec 3) true
       (build [mkHeading 1 "A" 1 (Some 19.92530059814453%float)]))
  = Ok [mkToCEntry "A" 1 1 (Some 19.925%float) []].
Proof. reflexivity. Qed.

End CodecFacts.

(* ================================================================== *)
(** * Further properties of [filter.py] *)
(* ================================================================== *)

Module FilterMore.

Import Filter FilterFacts.

(** X1.  A recipe entry that gives a level and no font constraint (no
    [font] table, or a table with neither [name] nor [size]) is constructed
    into a filter that admits every span. *)
Theorem init_without_font_admits_all (d : FilterDict) (f : ToCFilter)
    (s : Span) :
  fltr_font d = None \/ fltr_font d = Some (mkFontDict None None) ->
  init d = Ok f -> admits f s = true.
Proof.
  intros Hfont Hinit. unfold init in Hinit.
  destruct (fltr_level d) as [lvl|]; [| discriminate].
  destruct (lvl <? 1); [discriminate |].
  injection Hinit as <-. apply admits_spec. unfold font_get. cbn.
  destruct Hfont as [-> | ->]; cbn; split; discriminate.
Qed.

Lemma init_without_font_admits_all_witness :
  admits (mkToCFilter 3 false None None)
         (mkSpan None None None None None None) = true.
Proof.
  apply (init_without_font_admits_all (mkFilterDict (Some 3) None None)).
  - left. reflexivity.
  - reflexivity.
Defined.

(** X2.  For a recipe entry with a [font.name] and no [font.size], the
    filter that is constructed admits exactly the spans that carry this
    font name. *)
Theorem init_name_only_admits_iff (d : FilterDict) (f : ToCFilter)
    (n : string) (s : Span) :
  fltr_font d = Some (mkFontDict (Some n) None) ->
  init d = Ok f ->
  (admits f s = true <-> sp_font s = Some n).
Proof.
  intros Hfont Hinit. unfold init in Hinit.
  destruct (fltr_level d) as [lvl|]; [| discriminate].
  destruct (lvl <? 1); [discriminate |].
  injection Hinit as <-. rewrite admits_spec. unfold font_get.
  rewrite Hfont. cbn. split.
  - intros [Hn _]. apply Hn. reflexivity.
  - intros Hs. split; [intros ? [= <-]; exact Hs | discriminate].
Qed.

Lemma init_name_only_admits_iff_witness :
  admits (mkToCFilter 1 true (Some "Times-Bold") None)
         (mkSpan None (Some "Times-Bold") None None None None) = true.
Proof.
  apply (init_name_only_admits_iff
           (mkFilterDict (Some 1) (Some true)
              (Some (mkFontDict (Some "Times-Bold") None)))
           _ "Times-Bold"); reflexivity.
Defined.

(** X3.  [admits] looks at the [font] and [size] of a span and at nothing
    else: two spans that agree on these two keys are treated alike,
    whatever their text, flags, colour and bounding box are. *)
Theorem admits_reads_font_and_size_only (f : ToCFilter) (s1 s2 : Span) :
  sp_font s1 = sp_font s2 -> sp_size s1 = sp_size s2 ->
  admits f s1 = admits f s2.
Proof.
  intros Hfont Hsize. unfold admits. rewrite Hfont, Hsize. reflexivity.
Qed.

Lemma admits_reads_font_and_size_only_witness :
  admits times_filter
    (mkSpan (Some "Chapter 1") (Some "Times-Bold") (Some 12%float)
            (Some 20) (Some 0) None)
  = admits times_filter
    (mkSpan None (Some "Times-Bold") (Some 12%float) (Some 4)
            (Some 255) (Some (0%float, 1%float, 2%float, 3%float))).
Proof.
  apply admits_reads_font_and_size_only; reflexivity.
Defined.

(** The size test of [admits] and [admits_float] can differ only when
    both sizes are there: if the filter has no font size or the span no
    size, a filter without a font name gives what [admits_float] gives,
    whatever the tolerance is. *)
Theorem admits_agrees_with_admits_float (f : ToCFilter) (s : Span)
    (tolerance : float) :
  font_name f = None ->
  font_size f = None \/ sp_size s = None ->
  admits f s = admits_float (font_size f) (sp_size s) tolerance.
Proof.
  intros Hn Hmiss. unfold admits, admits_float. rewrite Hn.
  destruct (font_size f) as [x|]; [| reflexivity].
  destruct Hmiss as [H | ->]; [discriminate | reflexivity].
Qed.

Lemma admits_agrees_with_admits_float_witness :
  admits size_only_filter (mkSpan None None None None None None)
  = admits_float (Some 12%float) None DEF_TOLERANCE.
Proof.
  apply (admits_agrees_with_admits_float size_only_filter
           (mkSpan None None None None None None) DEF_TOLERANCE).
  - reflexivity.
  - right. reflexivity.
Defined.

End FilterMore.

(* ================================================================== *)
(** * Further properties of [pdfxmeta.py]: searching *)
(* ================================================================== *)

Module SearchFacts.

Import Pdfxmeta Recipe.

(** The spans of a page in reading order: block by block, line by line. *)
Definition block_spans (blk : Block) : list Span :=
  flat_map (fun ln => get_default (ln_spans ln) [])
           (get_default (blk_lines blk) []).

Definition page_spans (pg : PageMeta) : list Span :=
  flat_map block_spans (get_default (pg_blocks pg) []).

(** A loop that only ever extends its accumulator. *)
Lemma fold_left_extend {A B} (step : list B -> A -> list B)
    (ext : A -> list B) (l : list A) (acc : list B) :
  (forall acc x, step acc x = (acc ++ ext x)%list) ->
  fold_left step l acc = (acc ++ flat_map ext l)%list.
Proof.
  intros Hstep. revert acc.
  induction l as [|x l IH]; intros acc; cbn.
  - rewrite app_nil_r. reflexivity.
  - rewrite IH, Hstep, <- app_assoc. reflexivity.
Qed.

Lemma flat_map_filter {A} (p : A -> bool) (l : list A) :
  flat_map (fun x => if p x then [x] else []) l = filter p l.
Proof.
  induction l as [|x l IH]; cbn; [reflexivity |].
  rewrite IH. destruct (p x); reflexivity.
Qed.

Lemma filter_flat_map {A B} (p : B -> bool) (f : A -> list B) (l : list A) :
  filter p (flat_map f l) = flat_map (fun x => filter p (f x)) l.
Proof.
  induction l as [|x l IH]; cbn; [reflexivity |].
  rewrite filter_app, IH. reflexivity.
Qed.

Lemma get_spans_pages (pages : list PageMeta) (acc : list Span) :
  fold_left (fun all_spans p =>
    fold_left (fun all_spans blk =>
      fold_left (fun all_spans ln =>
        (all_spans ++ get_default (ln_spans ln) [])%list)
        (get_default (blk_lines blk) []) all_spans)
      (get_default (pg_blocks p) []) all_spans)
    pages acc
  = (acc ++ flat_map page_spans pages)%list.
Proof.
  apply fold_left_extend. intros acc' p.
  apply fold_left_extend. intros acc'' blk.
  apply fold_left_extend. reflexivity.
Qed.

Section WithRe.
Context {re : Re}.

(** Whether [regex.search] finds the pattern in the text of a span; a span
    without [text] is searched as the empty text. *)
Definition matches (rx : regex) (spn : Span) : bool :=
  re_search rx (get_default (sp_text spn) EmptyString).

Lemma search_in_page_filter (rx : regex) (page : PageMeta) :
  search_in_page rx page = filter (matches rx) (page_spans page).
Proof.
  unfold search_in_page, page_spans, block_spans.
  rewrite (fold_left_extend _
             (fun blk => filter (matches rx)
                (flat_map (fun ln => get_default (ln_spans ln) [])
                          (get_default (blk_lines blk) [])))).
  - cbn. rewrite filter_flat_map. reflexivity.
  - intros acc blk.
    rewrite (fold_left_extend _
               (fun ln => filter (matches rx) (get_default (ln_spans ln) []))).
    + rewrite filter_flat_map. reflexivity.
    + intros acc' ln.
      rewrite (fold_left_extend _
                 (fun spn => if matches rx spn then [spn] else [])).
      * rewrite flat_map_filter. reflexivity.
      * intros acc'' spn. unfold matches.
        destruct (re_search rx _); [reflexivity |].
        rewrite app_nil_r. reflexivity.
Qed.

(** X4.  [search_in_page] returns the spans of the page whose text the
    pattern is found in: all of them, no other, in reading order. *)
Theorem search_in_page_is_filter (rx : regex) (page : PageMeta) :
  search_in_page rx page = filter (matches rx) (page_spans page).
Proof. apply search_in_page_filter. Qed.

Lemma extract_meta_whole (doc : Document) (pattern : string)
    (ign_case : bool) (rx : regex) :
  re_compile pattern ign_case = Some rx ->
  extract_meta doc pattern None ign_case
  = Ok (flat_map (search_in_page rx) doc).
Proof.
  intros Hrx. unfold extract_meta. cbn. rewrite Hrx.
  rewrite (fold_left_extend _ (search_in_page rx)) by reflexivity.
  reflexivity.
Qed.

Lemma extract_meta_one_page (doc : Document) (pattern : string)
    (ign_case : bool) (rx : regex) (i : nat) (pg : PageMeta) :
  re_compile pattern ign_case = Some rx ->
  nth_error doc i = Some pg ->
  extract_meta doc pattern (Some (Z.of_nat (S i))) ign_case
  = Ok (search_in_page rx pg).
Proof.
  intros Hrx Hpg. unfold extract_meta, page_count, doc_getitem.
  assert (i < List.length doc)%nat as Hlt
    by (apply nth_error_Some; congruence).
  assert ((1 <=? Z.of_nat (S i)) && (Z.of_nat (S i) <=? Z.of_nat (List.length doc))
          = true) as ->
    by (apply andb_true_iff; rewrite !Z.leb_le; lia).
  replace (Z.to_nat (Z.of_nat (S i) - 1)) with i by lia.
  rewrite Hpg. cbn. rewrite Hrx. reflexivity.
Qed.

(** What searching page [i] gives, read as a list. *)
Definition page_result (doc : Document) (pattern : string) (ign_case : bool)
    (i : nat) : list Span :=
  match extract_meta doc pattern (Some (Z.of_nat i)) ign_case with
  | Ok spans => spans
  | Raise _ => []
  end.

Lemma page_results_from (doc rest : Document) (pattern : string)
    (ign_case : bool) (rx : regex) (k : nat) :
  re_compile pattern ign_case = Some rx ->
  (forall i pg, nth_error rest i = Some pg ->
                nth_error doc (k + i) = Some pg) ->
  map (page_result doc pattern ign_case) (seq (S k) (List.length rest))
  = map (search_in_page rx) rest.
Proof.
  intros Hrx. revert k.
  induction rest as [|pg rest IH]; intros k Hnth; cbn [List.length seq map].
  - reflexivity.
  - f_equal.
    + unfold page_result.
      rewrite (extract_meta_one_page doc pattern ign_case rx k pg Hrx).
      * reflexivity.
      * rewrite <- (Nat.add_0_r k). apply Hnth. reflexivity.
    + apply IH. intros i pg' Hi.
      replace (S k + i)%nat with (k + S i)%nat by lia.
      apply Hnth. exact Hi.
Qed.

(** X5.  With a pattern that compiles, searching the whole document
    ([page] is [None]) gives the results of searching page 1, page 2, ...
    up to the last page, one after the other. *)
Theorem extract_meta_whole_is_pages (doc : Document) (pattern : string)
    (ign_case : bool) (rx : regex) :
  re_compile pattern ign_case = Some rx ->
  extract_meta doc pattern None ign_case
  = Ok (List.concat (map (page_result doc pattern ign_case)
                         (seq 1 (List.length doc)))).
Proof.
  intros Hrx. rewrite (extract_meta_whole _ _ _ rx Hrx).
  rewrite (page_results_from doc doc pattern ign_case rx 0 Hrx)
    by (intros i pg H; exact H).
  rewrite flat_map_concat_map. reflexivity.
Qed.

(** X6.  The only thing [extract_meta] can raise is the error of a pattern
    that does not compile, and it raises it exactly when the pattern does
    not compile and the page is [None] or in range: a page out of range
    hides a bad pattern. *)
Theorem extract_meta_raises_iff (doc : Document) (pattern : string)
    (page : option Z) (ign_case : bool) (e : exn) :
  extract_meta doc pattern page ign_case = Raise e <->
  e = ReError pattern /\ re_compile pattern ign_case = None /\
  (page = None \/ exists p, page = Some p /\ 1 <= p <= page_count doc).
Proof.
  unfold extract_meta. destruct page as [p|]; cbn.
  - destruct ((1 <=? p) && (p <=? page_count doc)) eqn:Hrange.
    + apply andb_true_iff in Hrange. rewrite !Z.leb_le in Hrange.
      destruct (PdfxmetaFacts.doc_getitem_in_range doc p Hrange)
        as (pg & _ & ->). cbn.
      destruct (re_compile pattern ign_case) as [rx|]; split.
      * discriminate.
      * intros (_ & [=] & _).
      * intros [= <-]. repeat split; try lia. right. exists p.
        split; [reflexivity | lia].
      * intros (-> & _ & _). reflexivity.
    + apply andb_false_iff in Hrange. rewrite !Z.leb_gt in Hrange.
      cbn. split; [discriminate |].
      intros (_ & _ & [[=] | (p' & [= <-] & Hp)]). lia.
  - destruct (re_compile pattern ign_case) as [rx|]; split.
    + discriminate.
    + intros (_ & [=] & _).
    + intros [= <-]. repeat split. left. reflexivity.
    + intros (-> & _ & _). reflexivity.
Qed.

End WithRe.

End SearchFacts.

(* ================================================================== *)
(** * Further properties of [pdfxmeta.py]: the recipe generator *)
(* ================================================================== *)

Module RecipeFacts.

Import Pdfxmeta Recipe SearchFacts.

Lemma extract_meta_whole_is_pages_witness :
  @extract_meta PdfxmetaFacts.literal_re PdfxmetaFacts.two_pages "Chapter"
    None false
  = Ok (@page_result PdfxmetaFacts.literal_re PdfxmetaFacts.two_pages
          "Chapter" false 1
        ++ @page_result PdfxmetaFacts.literal_re PdfxmetaFacts.two_pages
          "Chapter" false 2)%list.
Proof.
  rewrite <- (app_nil_r (@page_result PdfxmetaFacts.literal_re
                PdfxmetaFacts.two_pages "Chapter" false 2)).
  apply (@extract_meta_whole_is_pages PdfxmetaFacts.literal_re
           PdfxmetaFacts.two_pages "Chapter" false "Chapter").
  reflexivity.
Defined.

(** *** [get_spans] *)

(** X7.  [get_spans] gives every span of the document when [page] is
    [None] and every span of the page when [page] is in range, in reading
    order; with a page out of range it raises [NameError], because the
    branch returns a name that is bound nowhere. *)
Theorem get_spans_cases (doc : Document) (p : Z) :
  get_spans doc None = inl (flat_map page_spans doc) /\
  (1 <= p <= page_count doc ->
     exists pg, nth_error doc (Z.to_nat (p - 1)) = Some pg /\
                get_spans doc (Some p) = inl (page_spans pg)) /\
  (p < 1 \/ page_count doc < p ->
     get_spans doc (Some p) = inr (NameError "result")).
Proof.
  unfold get_spans. split; [| split].
  - cbn. rewrite get_spans_pages. reflexivity.
  - intros Hp.
    assert ((1 <=? p) && (p <=? page_count doc) = true) as ->
      by (apply andb_true_iff; rewrite !Z.leb_le; lia).
    destruct (PdfxmetaFacts.doc_getitem_in_range doc p Hp) as (pg & Hnth & ->).
    exists pg. split; [exact Hnth |]. cbn [lift and_then ret].
    rewrite get_spans_pages. cbn. rewrite app_nil_r. reflexivity.
  - intros Hp.
    assert ((1 <=? p) && (p <=? page_count doc) = false) as ->
      by (apply andb_false_iff; rewrite !Z.leb_gt; lia).
    reflexivity.
Qed.

Lemma get_spans_cases_witness :
  (exists pg, nth_error PdfxmetaFacts.two_pages 1 = Some pg /\
     get_spans PdfxmetaFacts.two_pages (Some 2) = inl (page_spans pg)) /\
  get_spans PdfxmetaFacts.two_pages (Some 3) = inr (NameError "result").
Proof.
  split.
  - apply (proj1 (proj2 (get_spans_cases PdfxmetaFacts.two_pages 2))).
    cbn. lia.
  - apply (proj2 (proj2 (get_spans_cases PdfxmetaFacts.two_pages 3))).
    right. cbn. lia.
Defined.

Section WithRe.
Context {re : Re}.

(** X8.  Whenever [get_spans] returns for a document and a page, and the
    pattern compiles, [extract_meta] returns for them the spans of
    [get_spans] that match, in the same order. *)
Theorem extract_meta_filters_get_spans (doc : Document) (pattern : string)
    (page : option Z) (ign_case : bool) (rx : regex) (spans : list Span) :
  re_compile pattern ign_case = Some rx ->
  get_spans doc page = inl spans ->
  extract_meta doc pattern page ign_case = Ok (filter (matches rx) spans).
Proof.
  intros Hrx Hspans. destruct page as [p|].
  - unfold get_spans in Hspans. unfold extract_meta.
    destruct ((1 <=? p) && (p <=? page_count doc)) eqn:Hrange;
      [| discriminate].
    apply andb_true_iff in Hrange. rewrite !Z.leb_le in Hrange.
    destruct (PdfxmetaFacts.doc_getitem_in_range doc p Hrange)
      as (pg & _ & Hpg).
    rewrite Hpg in *. cbn [lift and_then ret bind] in *.
    rewrite get_spans_pages in Hspans. rewrite Hrx.
    injection Hspans as <-. cbn. rewrite !app_nil_r.
    rewrite search_in_page_filter. reflexivity.
  - rewrite (extract_meta_whole _ _ _ rx Hrx).
    unfold get_spans in Hspans. cbn [and_then ret] in Hspans.
    rewrite get_spans_pages in Hspans. injection Hspans as <-.
    cbn [app]. rewrite filter_flat_map. f_equal.
    apply flat_map_ext. intros pg. apply search_in_page_filter.
Qed.

End WithRe.

End RecipeFacts.

Module GeneratorFacts.

Import Pdfxmeta Recipe SearchFacts.

Lemma extract_meta_filters_get_spans_witness :
  @extract_meta PdfxmetaFacts.literal_re PdfxmetaFacts.two_pages "text"
    (Some 1) false
  = Ok [mkSpan (Some "body text") (Some "Times-Bold") (Some 12%float)
               (Some 20) (Some 0) None].
Proof.
  apply (@RecipeFacts.extract_meta_filters_get_spans
           PdfxmetaFacts.literal_re PdfxmetaFacts.two_pages "text" (Some 1)
           false "text"
           [mkSpan (Some "Chapter 1") (Some "Times-Bold") (Some 12%float)
                   (Some 20) (Some 0) None;
            mkSpan (Some "body text") (Some "Times-Bold") (Some 12%float)
                   (Some 20) (Some 0) None]); reflexivity.
Defined.

(** *** Grouping and sorting *)

Lemma setdefault_append_cons (key : float) (sp : Span) (d : SizeDict) :
  setdefault_append key sp d <> [].
Proof.
  destruct d as [|[k v] d]; cbn; [discriminate |].
  destruct (PrimFloat.eqb k key); discriminate.
Qed.

Lemma length_insert_sorted (x : float * list Span) (l : SizeDict) :
  List.length (insert_sorted x l) = S (List.length l).
Proof.
  induction l as [|y l IH]; cbn; [reflexivity |].
  destruct (PrimFloat.ltb (fst x) (fst y)); cbn; [| rewrite IH]; reflexivity.
Qed.

Lemma length_sorted_from (items acc : SizeDict) :
  List.length (fold_left (fun acc x => insert_sorted x acc) items acc)
  = (List.length items + List.length acc)%nat.
Proof.
  revert acc. induction items as [|x items IH]; intros acc; cbn;
    [reflexivity |].
  rewrite IH, length_insert_sorted. lia.
Qed.

(** Sorting keeps every group. *)
Lemma length_sorted_by_size (items : SizeDict) :
  List.length (sorted_by_size items) = List.length items.
Proof. unfold sorted_by_size. rewrite length_sorted_from. cbn. lia. Qed.

Lemma group_by_size_sized (spans : list Span) (d : SizeDict) :
  Forall (fun sp => sp_size sp <> None) spans ->
  exists d', group_by_size spans d = inl d' /\
             (spans <> [] \/ d <> [] -> d' <> []).
Proof.
  intros Hs. revert d. induction Hs as [|sp spans Hsp _ IH]; intros d.
  - exists d. split; [reflexivity |]. intros [H | H]; congruence.
  - cbn. destruct (sp_size sp) as [sz|]; [| congruence]. cbn.
    destruct (IH (setdefault_append sz sp d)) as (d' & -> & Hd').
    exists d'. split; [reflexivity |]. intros _. apply Hd'. right.
    apply setdefault_append_cons.
Qed.

Lemma group_by_size_unsized (spans : list Span) (d : SizeDict) :
  Exists (fun sp => sp_size sp = None) spans ->
  group_by_size spans d = inr (Exn (KeyError "size")).
Proof.
  intros Hs. revert d. induction Hs as [sp spans Hsp | sp spans _ IH];
    intros d; cbn.
  - rewrite Hsp. reflexivity.
  - destruct (sp_size sp) as [sz|]; [apply IH | reflexivity].
Qed.

Section WithToml.
Context {enc : TomlEncoder}.

Lemma recipe_entries_raise (i : nat) (sp : float * list Span)
    (rest : SizeDict) (result : list string) :
  recipe_entries i (sp :: rest) result
  = inr (TypeError "tuple indices must be integers or slices, not str").
Proof. reflexivity. Qed.

(** What [generate_recipe_from_spans] does, by the spans it is given. *)
Lemma generate_recipe_from_spans_cases (spans : list Span) :
  (spans = [] -> generate_recipe_from_spans spans = inl []) /\
  (Exists (fun sp => sp_size sp = None) spans ->
     generate_recipe_from_spans spans = inr (Exn (KeyError "size"))) /\
  (spans <> [] -> Forall (fun sp => sp_size sp <> None) spans ->
     generate_recipe_from_spans spans
     = inr (TypeError "tuple indices must be integers or slices, not str")).
Proof.
  unfold generate_recipe_from_spans. split; [| split].
  - intros ->. reflexivity.
  - intros H. rewrite (group_by_size_unsized _ _ H). reflexivity.
  - intros Hne Hs.
    destruct (group_by_size_sized spans [] Hs) as (d & -> & Hd). cbn.
    specialize (Hd (or_introl Hne)).
    pose proof (length_sorted_by_size d) as Hlen.
    destruct (sorted_by_size d) as [|sp rest].
    + destruct d; [congruence | discriminate].
    + reflexivity.
Qed.

Lemma sized_or_not (spans : list Span) :
  Forall (fun sp => sp_size sp <> None) spans \/
  Exists (fun sp => sp_size sp = None) spans.
Proof.
  induction spans as [|sp spans [IH | IH]].
  - left. constructor.
  - destruct (sp_size sp) eqn:E.
    + left. constructor; [congruence | exact IH].
    + right. constructor. exact E.
  - right. apply Exists_cons_tl. exact IH.
Qed.

Lemma generate_recipe_from_spans_returns (spans : list Span)
    (recipe : list string) :
  generate_recipe_from_spans spans = inl recipe ->
  spans = [] /\ recipe = [].
Proof.
  intros H. destruct (generate_recipe_from_spans_cases spans)
    as (Hnil & Hkey & Htype).
  destruct spans as [|sp spans].
  - rewrite Hnil in H by reflexivity. injection H as <-. auto.
  - destruct (sized_or_not (sp :: spans)) as [Hs | Hs].
    + rewrite Htype in H by (discriminate || exact Hs). discriminate.
    + rewrite Hkey in H by exact Hs. discriminate.
Qed.

(** X9.  [generate_recipe_from_spans] never writes a recipe entry: it
    returns the empty list for no span; for one span or more it raises
    [KeyError] if one of them has no [size], and otherwise [TypeError] in
    the first round of its loop, where an item of the sorted dictionary (a
    tuple) is indexed with ['font']. *)
Theorem generate_recipe_from_spans_never_writes (spans : list Span) :
  (spans = [] -> generate_recipe_from_spans spans = inl []) /\
  (Exists (fun sp => sp_size sp = None) spans ->
     generate_recipe_from_spans spans = inr (Exn (KeyError "size"))) /\
  (spans <> [] -> Forall (fun sp => sp_size sp <> None) spans ->
     generate_recipe_from_spans spans
     = inr (TypeError "tuple indices must be integers or slices, not str")) /\
  (forall recipe, generate_recipe_from_spans spans = inl recipe ->
     spans = [] /\ recipe = []).
Proof.
  destruct (generate_recipe_from_spans_cases spans) as (H1 & H2 & H3).
  repeat split; try assumption;
    apply (generate_recipe_from_spans_returns spans recipe); assumption.
Qed.

(** X10.  [generate_recipe] returns only when the pages it looks at hold no
    span at all, and then it returns the empty list: no document makes it
    return a recipe entry.  With a page out of range it raises
    [NameError]. *)
Theorem generate_recipe_never_writes (doc : Document) (recipe_file : string)
    (page : option Z) (ign_case : bool) :
  (forall recipe,
     generate_recipe doc recipe_file page ign_case = inl recipe ->
     recipe = [] /\ get_spans doc page = inl []) /\
  (forall p, page = Some p -> p < 1 \/ page_count doc < p ->
     generate_recipe doc recipe_file page ign_case
     = inr (NameError "result")).
Proof.
  unfold generate_recipe. split.
  - intros recipe H. destruct (get_spans doc page) as [spans|r]; cbn in H;
      [| discriminate].
    apply generate_recipe_from_spans_returns in H. destruct H as [-> ->].
    auto.
  - intros p -> Hp. unfold get_spans.
    assert ((1 <=? p) && (p <=? page_count doc) = false) as ->
      by (apply andb_false_iff; rewrite !Z.leb_gt; lia).
    reflexivity.
Qed.

End WithToml.

Definition sized_spans : list Span :=
  [mkSpan (Some "Chapter 1") (Some "Times-Bold") (Some 14%float) (Some 20)
          (Some 0) None;
   mkSpan (Some "body text") (Some "Times-Roman") (Some 10%float) (Some 4)
          (Some 0) None].

Lemma generate_recipe_from_spans_never_writes_witness :
  @generate_recipe_from_spans PdfxmetaFacts.sample_encoder sized_spans
  = inr (TypeError "tuple indices must be integers or slices, not str") /\
  @generate_recipe_from_spans PdfxmetaFacts.sample_encoder
    [mkSpan (Some "Chapter 1") (Some "Times-Bold") None None None None]
  = inr (Exn (KeyError "size")).
Proof.
  split.
  - apply (proj1 (proj2 (proj2
             (@generate_recipe_from_spans_never_writes
                PdfxmetaFacts.sample_encoder sized_spans)))).
    + discriminate.
    + repeat constructor; discriminate.
  - apply (proj1 (proj2
             (@generate_recipe_from_spans_never_writes
                PdfxmetaFacts.sample_encoder
                [mkSpan (Some "Chapter 1") (Some "Times-Bold") None None
                        None None]))).
    constructor. reflexivity.
Defined.

Lemma generate_recipe_never_writes_witness :
  @generate_recipe PdfxmetaFacts.sample_encoder PdfxmetaFacts.two_pages
    "recipe.toml" (Some 3) false = inr (NameError "result") /\
  get_spans [mkPageMeta None] None = inl [].
Proof.
  split.
  - apply (proj2 (@generate_recipe_never_writes PdfxmetaFacts.sample_encoder
             PdfxmetaFacts.two_pages "recipe.toml" (Some 3) false) 3);
      [reflexivity | right; cbn; lia].
  - apply (proj1 (@generate_recipe_never_writes PdfxmetaFacts.sample_encoder
             [mkPageMeta None] "recipe.toml" None false) []).
    reflexivity.
Defined.

End GeneratorFacts.

(* ================================================================== *)
(** * Further properties of [pdfxmeta.py]: texts and dumps *)
(* ================================================================== *)

Module DumpFacts.

Import Pdfxmeta Recipe SearchFacts.

(** *** [blk_to_str] *)

Definition stripped_text (spn : Span) : string :=
  strip (get_default (sp_text spn) EmptyString).

Lemma blk_to_str_spans (blk : Block) :
  blk_to_str blk = join " " (map stripped_text (block_spans blk)).
Proof.
  unfold blk_to_str, block_spans. f_equal.
  induction (get_default (blk_lines blk) []) as [|line lines IH]; cbn.
  - reflexivity.
  - rewrite map_app, IH. reflexivity.
Qed.

(** X11.  [blk_to_str] sees a block as one run of spans: how the spans are
    divided into lines makes no difference to the text. *)
Theorem blk_to_str_ignores_lines (blk1 blk2 : Block) :
  block_spans blk1 = block_spans blk2 -> blk_to_str blk1 = blk_to_str blk2.
Proof.
  intros H. rewrite !blk_to_str_spans, H. reflexivity.
Qed.

Definition text_span (text : string) : Span :=
  mkSpan (Some text) None None None None None.

Lemma blk_to_str_ignores_lines_witness :
  blk_to_str (mkBlock (Some [mkLine (Some [text_span "Chapter 1 "]);
                             mkLine None;
                             mkLine (Some [text_span " Introduction"])]))
  = blk_to_str (mkBlock (Some [mkLine (Some [text_span "Chapter 1 ";
                                             text_span " Introduction"])])).
Proof.
  apply blk_to_str_ignores_lines. reflexivity.
Defined.

Lemma length_append (a b : string) :
  String.length (a ++ b) = (String.length a + String.length b)%nat.
Proof. induction a as [|c a IH]; cbn; [| rewrite IH]; reflexivity. Qed.

Lemma length_join_space (parts : list string) :
  String.length (join " " parts)
  = (list_sum (map String.length parts) + Nat.pred (List.length parts))%nat.
Proof.
  induction parts as [|p [|q parts] IH].
  - reflexivity.
  - cbn. lia.
  - change (join " " (p :: q :: parts))
      with (p ++ " " ++ join " " (q :: parts)).
    rewrite !length_append, IH. cbn. lia.
Qed.

(** X12.  The text of a block is as long as its stripped span texts taken
    together, plus one space between each two spans: also a span with no
    text, or with blanks only, is set off by its own space. *)
Theorem length_blk_to_str (blk : Block) :
  String.length (blk_to_str blk)
  = (list_sum (map (fun spn => String.length (stripped_text spn))
                   (block_spans blk))
     + Nat.pred (List.length (block_spans blk)))%nat.
Proof.
  rewrite blk_to_str_spans, length_join_space, map_map, length_map.
  reflexivity.
Qed.

(** *** [to_bools] and the flag bits *)

Lemma land_pow2_zero (flags k : Z) :
  0 <= k -> (Z.land flags (2 ^ k) = 0 <-> Z.testbit flags k = false).
Proof.
  intros Hk. split.
  - intros H. apply (f_equal (fun z => Z.testbit z k)) in H.
    rewrite Z.land_spec, Z.pow2_bits_true, andb_true_r in H by exact Hk.
    rewrite H. apply Z.bits_0.
  - intros H. apply Z.bits_inj'. intros n Hn.
    rewrite Z.land_spec, Z.bits_0, Z.pow2_bits_eqb by exact Hk.
    destruct (Z.eqb_spec k n) as [<-|_].
    + rewrite H. reflexivity.
    + apply andb_false_r.
Qed.

(** What a flag line says of bit [k]. *)
Definition bit_text (flags k : Z) : string :=
  if Z.testbit flags k then "true" else "false".

Lemma to_bools_land_pow2 (flags k : Z) :
  0 <= k -> to_bools (Z.land flags (2 ^ k)) = bit_text flags k.
Proof.
  intros Hk. unfold to_bools, bit_text.
  destruct (Z.testbit flags k) eqn:Hbit.
  - destruct (Z.eqb_spec (Z.land flags (2 ^ k)) 0) as [E|_]; [| reflexivity].
    apply (land_pow2_zero flags k Hk) in E. congruence.
  - apply (land_pow2_zero flags k Hk) in Hbit. rewrite Hbit. reflexivity.
Qed.

(** *** [dump_toml] and [dump_meta] *)

Lemma join_trailing_empty (sep : string) (lines : list string) :
  lines <> [] -> join sep (lines ++ [EmptyString]) = join sep lines ++ sep.
Proof.
  induction lines as [|l [|l' lines] IH]; intros Hne; [congruence | |].
  - cbn. rewrite StrFacts.append_nil_r. reflexivity.
  - change (join sep ((l :: l' :: lines) ++ [EmptyString]))
      with (l ++ sep ++ join sep ((l' :: lines) ++ [EmptyString])).
    rewrite IH by discriminate.
    change (join sep (l :: l' :: lines))
      with (l ++ sep ++ join sep (l' :: lines)).
    rewrite !StrFacts.append_assoc. reflexivity.
Qed.

Ltac first_missing :=
  first [ solve [repeat split; first [reflexivity | discriminate]]
        | left; first_missing
        | right; first_missing ].

Section WithToml.
Context {enc : TomlEncoder}.

(** X14.  Asking [dump_toml] for a trailing new line changes nothing but
    the end of the text: one line break is added, and a call that raises
    without it raises the same with it. *)
Theorem dump_toml_trailing_newline (spn : Span) (level : Z) :
  dump_toml spn level true
  = (text <- dump_toml spn level false ;; Ok (text ++ Pdfxmeta.newline)).
Proof.
  unfold dump_toml, dump_toml_lines.
  destruct (sp_font spn), (sp_size spn), (sp_color spn), (sp_flags spn),
           (sp_bbox spn) as [[[[x0 y0] x1] y1]|]; cbn [getitem bind];
    try reflexivity.
  cbv beta iota zeta. cbn [bind]. f_equal.
  apply join_trailing_empty. discriminate.
Qed.

(** X15.  [dump_meta] and [dump_toml] fail on the same spans and with the
    same error: a [KeyError] for the first of [font], [size], [color],
    [flags], [bbox] that the span lacks.  A missing [text] fails
    neither. *)
Theorem dump_meta_dump_toml_same_error (spn : Span) (level : Z)
    (trail_nl : bool) (e : exn) :
  (dump_meta spn = Raise e <-> dump_toml spn level trail_nl = Raise e) /\
  (dump_meta spn = Raise e ->
     exists key, e = KeyError key /\
       ((sp_font spn = None /\ key = "font") \/
        (sp_font spn <> None /\ sp_size spn = None /\ key = "size") \/
        (sp_font spn <> None /\ sp_size spn <> None /\
         sp_color spn = None /\ key = "color") \/
        (sp_font spn <> None /\ sp_size spn <> None /\
         sp_color spn <> None /\ sp_flags spn = None /\ key = "flags") \/
        (sp_font spn <> None /\ sp_size spn <> None /\
         sp_color spn <> None /\ sp_flags spn <> None /\
         sp_bbox spn = None /\ key = "bbox"))).
Proof.
  unfold dump_meta, dump_meta_lines, dump_toml, dump_toml_lines.
  destruct (sp_font spn), (sp_size spn), (sp_color spn), (sp_flags spn),
           (sp_bbox spn) as [[[[x0 y0] x1] y1]|]; cbn [getitem bind];
    (split; [split; intros H; try exact H; try discriminate H |]);
    try discriminate;
    intros [= <-]; eexists; (split; [reflexivity |]); first_missing.
Qed.

(** X16.  When both succeed, lines 8 to 17 of [dump_toml] are lines 3 to 12
    of [dump_meta] (colour, the five flags, the bounding box), each turned
    into a comment. *)
Theorem dump_toml_comments_dump_meta (spn : Span) (level : Z)
    (trail_nl : bool) (meta toml : list string) :
  dump_meta_lines spn = Ok meta ->
  dump_toml_lines spn level trail_nl = Ok toml ->
  firstn 10 (skipn 7 toml) = map (String.append "# ") (skipn 2 meta).
Proof.
  unfold dump_meta_lines, dump_toml_lines.
  destruct (sp_font spn), (sp_size spn), (sp_color spn), (sp_flags spn),
           (sp_bbox spn) as [[[[x0 y0] x1] y1]|]; cbn [getitem bind];
    try discriminate.
  intros [= <-] [= <-]. destruct trail_nl; reflexivity.
Qed.

End WithToml.

Lemma dump_meta_dump_toml_same_error_witness :
  @dump_toml PdfxmetaFacts.sample_encoder
    (mkSpan None (Some "Times-Bold") None (Some 20) None None) 1 false
  = Raise (KeyError "size").
Proof.
  apply (proj1 (@dump_meta_dump_toml_same_error PdfxmetaFacts.sample_encoder
           (mkSpan None (Some "Times-Bold") None (Some 20) None None)
           1 false (KeyError "size"))).
  reflexivity.
Defined.

(** *** The font name of a generated recipe against [admits] *)

Lemma partition_found (c : ascii) (s : string) :
  contains_char c s = true ->
  exists before after,
    partition c s = (before, String c EmptyString, after) /\
    (String.length after < String.length s)%nat.
Proof.
  induction s as [|a s IH]; cbn; [discriminate |].
  destruct (Ascii.eqb a c) eqn:E; cbn.
  - intros _. exists EmptyString, s. split; [reflexivity | lia].
  - intros H. destruct (IH H) as (before & after & -> & Hlen).
    exists (String a before), after. split; [reflexivity | lia].
Qed.

(** X17.  A filter on the font name that [dump_toml] writes for a span
    admits that span if and only if its font name has no [+]: for a font
    with a subset prefix the name in the generated recipe is a proper end
    of the span's font name, and [admits] compares the two as they are. *)
Theorem generated_name_admits_iff (spn : Span) (name : string) (level : Z)
    (greedy : bool) :
  sp_font spn = Some name ->
  (Filter.admits
     (Filter.mkToCFilter level greedy (Some (strip_subset_prefix name)) None)
     spn = true
   <-> contains_char "+" name = false).
Proof.
  intros Hfont. rewrite FilterFacts.admits_spec. cbn. rewrite Hfont. split.
  - intros [Hn _]. specialize (Hn _ eq_refl). injection Hn as Hn.
    destruct (contains_char "+" name) eqn:E; [| reflexivity].
    destruct (partition_found _ _ E) as (before & after & Hp & Hlen).
    unfold strip_subset_prefix in Hn. rewrite Hp in Hn. cbn in Hn.
    subst after. lia.
  - intros H. split; [| discriminate]. intros n [= <-].
    rewrite (PdfxmetaFacts.strip_subset_prefix_absent _ H). reflexivity.
Qed.

Lemma generated_name_admits_iff_witness :
  contains_char "+" "Times-Bold" = false /\
  Filter.admits
    (Filter.mkToCFilter 1 true (Some (strip_subset_prefix "Times-Bold")) None)
    (mkSpan (Some "Chapter 1") (Some "Times-Bold") None None None None)
  = true.
Proof.
  split; [reflexivity |].
  apply (proj2 (generated_name_admits_iff
           (mkSpan (Some "Chapter 1") (Some "Times-Bold") None None None None)
           "Times-Bold" 1 true eq_refl)).
  reflexivity.
Defined.

(** The span of a font with a subset prefix is not matched by the name
    written for it. *)
Example generated_name_misses_subset_font :
  Filter.admits
    (Filter.mkToCFilter 1 true
       (Some (strip_subset_prefix "ABCDEF+Times-Bold")) None)
    (mkSpan (Some "Chapter 1") (Some "ABCDEF+Times-Bold") None None None
            None) = false.
Proof. reflexivity. Qed.

Definition full_span : Span :=
  mkSpan (Some "Chapter 1") (Some "ABCDEF+Times-Bold") (Some 12%float)
         (Some 20) (Some 255)
         (Some (72%float, 90.5%float, 200%float, 110%float)).

(** X13.  [to_bools(flags & 2 ** k)] is ["true"] exactly when bit [k] of
    [flags] is set and ["false"] otherwise, and this is what [dump_meta]
    and [dump_toml] write: for a span with every key both succeed, lines 4
    to 8 of [dump_meta] and lines 9 to 13 of [dump_toml] (there as
    comments) give superscript, italic, serif, monospace and bold as bits 0
    to 4 of the span's flags. *)
Theorem to_bools_reads_bit {enc : TomlEncoder} (text : option string)
    (name : string) (size : float) (flags color : Z)
    (bbox : float * float * float * float) (level : Z) (trail_nl : bool) :
  (forall k, 0 <= k -> to_bools (Z.land flags (2 ^ k)) = bit_text flags k) /\
  exists meta toml,
    dump_meta_lines (mkSpan text (Some name) (Some size) (Some flags)
                            (Some color) (Some bbox)) = Ok meta /\
    dump_toml_lines (mkSpan text (Some name) (Some size) (Some flags)
                            (Some color) (Some bbox)) level trail_nl
    = Ok toml /\
    firstn 5 (skipn 3 meta)
    = ["font.superscript = " ++ bit_text flags 0;
       "font.italic = " ++ bit_text flags 1;
       "font.serif = " ++ bit_text flags 2;
       "font.monospace = " ++ bit_text flags 3;
       "font.bold = " ++ bit_text flags 4] /\
    firstn 5 (skipn 8 toml)
    = ["# font.superscript = " ++ bit_text flags 0;
       "# font.italic = " ++ bit_text flags 1;
       "# font.serif = " ++ bit_text flags 2;
       "# font.monospace = " ++ bit_text flags 3;
       "# font.bold = " ++ bit_text flags 4].
Proof.
  split; [intros k Hk; apply to_bools_land_pow2; exact Hk |].
  destruct bbox as [[[x0 y0] x1] y1].
  unfold dump_meta_lines, dump_toml_lines. cbn [getitem bind sp_font sp_size
    sp_color sp_flags sp_bbox].
  eexists. eexists. split; [reflexivity |]. split; [reflexivity |].
  rewrite <- (to_bools_land_pow2 flags 0), <- (to_bools_land_pow2 flags 1),
    <- (to_bools_land_pow2 flags 2), <- (to_bools_land_pow2 flags 3),
    <- (to_bools_land_pow2 flags 4) by lia.
  split; [reflexivity | destruct trail_nl; reflexivity].
Qed.

Lemma to_bools_reads_bit_witness :
  to_bools (Z.land 20 16) = "true" /\ to_bools (Z.land 20 2) = "false".
Proof.
  split.
  - apply (proj1 (@to_bools_reads_bit PdfxmetaFacts.sample_encoder
             (Some "Chapter 1") "Times-Bold" 12%float 20 0
             (72%float, 90.5%float, 200%float, 110%float) 1 false) 4). lia.
  - apply (proj1 (@to_bools_reads_bit PdfxmetaFacts.sample_encoder
             (Some "Chapter 1") "Times-Bold" 12%float 20 0
             (72%float, 90.5%float, 200%float, 110%float) 1 false) 1). lia.
Defined.

(** With flags 20 (serif and bold) the dumps say so. *)
Example dump_meta_flag_lines :
  option_map (fun lines => firstn 5 (skipn 3 lines))
    (match @dump_meta_lines PdfxmetaFacts.sample_encoder full_span with
     | Ok lines => Some lines
     | Raise _ => None
     end)
  = Some ["font.superscript = false"; "font.italic = false";
          "font.serif = true"; "font.monospace = false";
          "font.bold = true"].
Proof. reflexivity. Qed.

Lemma dump_toml_comments_dump_meta_witness :
  exists meta toml,
    @dump_meta_lines PdfxmetaFacts.sample_encoder full_span = Ok meta /\
    @dump_toml_lines PdfxmetaFacts.sample_encoder full_span 1 true = Ok toml /\
    firstn 3 (firstn 10 (skipn 7 toml))
    = ["# font.color = 0x0000ff"; "# font.superscript = false";
       "# font.italic = false"].
Proof.
  eexists. eexists. split; [reflexivity |]. split; [reflexivity |].
  rewrite (@dump_toml_comments_dump_meta PdfxmetaFacts.sample_encoder
             full_span 1 true _ _ eq_refl eq_refl).
  reflexivity.
Defined.

End DumpFacts.
